(** * PingClient: a shallow embedding of [ping_client.py]

    The development follows the source file top to bottom: the Python
    primitives the client relies on, the message codec ([build_message],
    [calculate_checksum], [bit_flip]), the statistics reporter
    ([summary_statistics]), the probe executor ([send_ping]) and the
    scheduler ([run]).

    Integers are [Z] (Python integers are unbounded), byte strings are
    [list byte], text is [string].  Readings of [time.time() * 1000] are
    rationals, and so are the quotients of [summary_statistics]: the
    binary64 rounding of the interpreter is not modelled, so a percentage
    or an average that binary64 moves off a tie is rounded here as the
    exact quotient is.  Exceptions are values of [exn] carried in the left
    summand of [result].

    The threads of [run] are modelled twice: [run] takes the calls of
    [send_ping] one after the other, [run_interleaved] interleaves their
    accesses to the shared client under an arbitrary schedule; the first
    is the second under the serial schedule ([run_serial]). *)

From Stdlib Require Import ZArith List String Ascii Lia Bool.
From Stdlib.Strings Require Import Byte.
From Stdlib Require Import QArith Qround DecimalString Permutation.
Import ListNotations.

Local Open Scope Z_scope.

(** ** Exceptions and the error monad *)

Inductive exn : Type :=
| OverflowError      (* int.to_bytes: value does not fit / is negative *)
| ZeroDivisionError  (* true division by zero *)
| ValueError         (* min() / max() of an empty sequence *)
| OSError            (* any socket failure that is not a timeout *)
| SocketTimeout.     (* socket.timeout *)

Definition result (A : Type) : Type := (exn + A)%type.

Definition ret {A : Type} (a : A) : result A := inr a.
Definition raise {A : Type} (e : exn) : result A := inl e.

Definition bind {A B : Type} (c : result A) (k : A -> result B) : result B :=
  match c with
  | inl e => inl e
  | inr a => k a
  end.

Notation "x <- c ;; k" := (bind c (fun x => k))
  (at level 61, c at next level, right associativity).

(** ** Python primitives *)

Module Py.

Definition byte_val (b : byte) : Z := Z.of_N (Byte.to_N b).

Definition byte_of_Z (z : Z) : byte :=
  match Byte.of_N (Z.to_N z) with
  | Some b => b
  | None => x00
  end.

(** Big-endian digits of [n] in base 256, [length] of them. *)
Fixpoint be_bytes (length : nat) (n : Z) : list byte :=
  match length with
  | O => []
  | S k => be_bytes k (n / 256) ++ [byte_of_Z (n mod 256)]
  end.

(** [n.to_bytes(length, byteorder='big')]: unsigned, raises
    [OverflowError] on a negative value or one that needs more bytes. *)
Definition to_bytes (n : Z) (length : nat) : result (list byte) :=
  if (n <? 0) || (256 ^ Z.of_nat length <=? n)
  then raise OverflowError
  else ret (be_bytes length n).

(** [int.from_bytes(bs, byteorder='big')]. *)
Definition from_bytes (bs : list byte) : Z :=
  fold_left (fun acc b => acc * 256 + byte_val b) bs 0.

(** [bs[i:j]] for [0 <= i <= j]. *)
Definition slice {A : Type} (bs : list A) (i j : nat) : list A :=
  firstn (j - i) (skipn i bs).

(** [int(x)]: truncation towards zero. *)
Definition int (x : Q) : Z :=
  if Qle_bool 0 x then Qfloor x else Qceiling x.

(** [round(x)]: nearest integer, ties to the even one. *)
Definition round (x : Q) : Z :=
  let f := Qfloor x in
  match ((x - inject_Z f) ?= (1 # 2))%Q with
  | Lt => f
  | Gt => f + 1
  | Eq => if Z.even f then f else f + 1
  end.

(** [str(n)] for an integer. *)
Definition str (n : Z) : string := NilZero.string_of_int (Z.to_int n).

(** [a / b] on integers (true division). *)
Definition truediv (a b : Z) : result Q :=
  if b =? 0 then raise ZeroDivisionError else ret (inject_Z a / inject_Z b)%Q.

Definition sum (l : list Z) : Z := fold_left Z.add l 0.

Definition min (l : list Z) : result Z :=
  match l with
  | [] => raise ValueError
  | x :: t => ret (fold_left Z.min t x)
  end.

Definition max (l : list Z) : result Z :=
  match l with
  | [] => raise ValueError
  | x :: t => ret (fold_left Z.max t x)
  end.

End Py.

(** ** Message codec *)

(** The loop of [calculate_checksum]: [range(0, len(message)-1, 2)] visits
    the bytes two at a time and leaves a trailing odd byte unread. *)
Fixpoint checksum_loop (s : Z) (message : list byte) : Z :=
  match message with
  | b0 :: b1 :: rest =>
      let w := Z.shiftl (Py.byte_val b0 + Z.shiftl (Py.byte_val b1) 8) 8 in
      checksum_loop (Z.land (w + s) 0xffff + Z.shiftr (w + s) 16) rest
  | _ => s
  end.

Definition calculate_checksum (message : list byte) : Z :=
  checksum_loop 0 message.

Definition bit_flip (checksum : Z) : Z := 0xffff - checksum.

(** [build_message]: [pid] is the value of [os.getpid()], [clock] the value
    of [time.time() * 1000] when the message is built. *)
Definition build_message (pid : Z) (clock : Q) (seq_num : Z)
  : result (list byte) :=
  let msg_type := x08 in
  identifier <- Py.to_bytes (pid mod 65536) 2 ;;
  checksum <- Py.to_bytes 0 2 ;;
  seq_num <- Py.to_bytes seq_num 2 ;;
  timestamp <- Py.to_bytes (Py.int clock) 6 ;;
  let msg := [msg_type; x00] ++ checksum ++ identifier ++ seq_num ++ timestamp in
  let checksum := calculate_checksum msg in
  checksum <- Py.to_bytes (bit_flip checksum) 2 ;;
  let final_msg :=
    [msg_type; x00] ++ checksum ++ identifier ++ seq_num ++ timestamp in
  ret final_msg.

(** ** Client state *)

(** A thread object of [thread_list]: [Thread] runs [send_ping] as soon as
    it is started, [Timer] runs it [interval] seconds after it is started.
    The argument is the sequence number passed to [send_ping]. *)
Inductive thread : Type :=
| Thread (seq_num : Z)
| Timer (interval : Q) (seq_num : Z).

Definition thread_seq (t : thread) : Z :=
  match t with
  | Thread n => n
  | Timer _ n => n
  end.

(** Seconds between [start()] and the call of [send_ping]. *)
Definition dispatch_delay (t : thread) : Q :=
  match t with
  | Thread _ => 0
  | Timer interval _ => interval
  end.

Record PingClient : Type := mkPingClient {
  server_ip : string;
  server_port : Z;
  count : Z;
  period : Q;
  timeout : Q;
  total_start : Q;
  total_end : Q;
  request_count : Z;
  reply_count : Z;
  rtt_list : list Z;
  thread_list : list thread
}.

(** [__init__], on the command-line values once read as integers. *)
Definition init (server_ip : string) (server_port count period timeout : Z)
  : PingClient :=
  {| server_ip := server_ip;
     server_port := server_port;
     count := count;
     period := inject_Z period / 1000;
     timeout := inject_Z timeout / 1000;
     total_start := 0;
     total_end := 0;
     request_count := 0;
     reply_count := 0;
     rtt_list := [];
     thread_list := [] |}.

Definition set_total_start (self : PingClient) (v : Q) : PingClient :=
  mkPingClient (server_ip self) (server_port self) (count self) (period self)
    (timeout self) v (total_end self) (request_count self)
    (reply_count self) (rtt_list self) (thread_list self).

Definition set_total_end (self : PingClient) (v : Q) : PingClient :=
  mkPingClient (server_ip self) (server_port self) (count self) (period self)
    (timeout self) (total_start self) v (request_count self)
    (reply_count self) (rtt_list self) (thread_list self).

Definition set_request_count (self : PingClient) (v : Z) : PingClient :=
  mkPingClient (server_ip self) (server_port self) (count self) (period self)
    (timeout self) (total_start self) (total_end self) v
    (reply_count self) (rtt_list self) (thread_list self).

Definition set_reply_count (self : PingClient) (v : Z) : PingClient :=
  mkPingClient (server_ip self) (server_port self) (count self) (period self)
    (timeout self) (total_start self) (total_end self) (request_count self)
    v (rtt_list self) (thread_list self).

Definition set_rtt_list (self : PingClient) (v : list Z) : PingClient :=
  mkPingClient (server_ip self) (server_port self) (count self) (period self)
    (timeout self) (total_start self) (total_end self) (request_count self)
    (reply_count self) v (thread_list self).

Definition set_thread_list (self : PingClient) (v : list thread) : PingClient :=
  mkPingClient (server_ip self) (server_port self) (count self) (period self)
    (timeout self) (total_start self) (total_end self) (request_count self)
    (reply_count self) (rtt_list self) v.

(** ** Statistics reporter *)

Local Open Scope string_scope.

Definition nl : string := String (ascii_of_nat 10) EmptyString.

Definition summary_statistics (self : PingClient) : result string :=
  let display_str := "--- " ++ server_ip self ++ " ping statistics ---" ++ nl in
  let transmitted := Py.str (request_count self) in
  let received := Py.str (reply_count self) in
  ratio <- Py.truediv (reply_count self) (request_count self) ;;
  let loss := Py.str (Py.round ((1 - ratio) * 100)) in
  let total_time := Py.str (Py.round (total_end self - total_start self)) in
  let display_str :=
    display_str ++ transmitted ++ " transmitted, " ++ received ++ " received, "
      ++ loss ++ "% loss, time " ++ total_time ++ " ms" ++ nl in
  if negb (reply_count self =? 0)%Z then
    rtt_min <- Py.min (rtt_list self) ;;
    mean <- Py.truediv (Py.sum (rtt_list self))
                       (Z.of_nat (List.length (rtt_list self))) ;;
    let rtt_avg := Py.str (Py.round mean) in
    rtt_max <- Py.max (rtt_list self) ;;
    ret (display_str ++ "rtt min/avg/max = " ++ Py.str rtt_min ++ "/" ++ rtt_avg
           ++ "/" ++ Py.str rtt_max ++ " ms")
  else
    ret (display_str ++ "rtt min/avg/max = 0/0/0 ms").

(** ** Probe executor *)

(** What the outside world does to one call of [send_ping]. *)
Record probe_env : Type := mkEnv {
  setup_result : option exn;        (* socket(), gethostbyname(), bind(),
                                       settimeout(): [Some e] when one raises *)
  pid : Z;                          (* os.getpid() *)
  build_clock : Q;                  (* time.time() * 1000 in build_message *)
  start_clock : Q;                  (* start_time *)
  send_result : option exn;         (* sendto(): [Some e] when it raises *)
  recv_result : result (list byte); (* recvfrom(2048): the datagram, or the
                                       exception raised *)
  end_clock : Q                     (* end_time *)
}.

(** The body of the [try] block: the new state and the lines printed. *)
Definition send_ping_try (self : PingClient) (env : probe_env) (seq_num : Z)
  : result (PingClient * list string) :=
  request_msg <- build_message (pid env) (build_clock env) seq_num ;;
  let start_time := start_clock env in
  _ <- match send_result env with
       | Some e => raise e
       | None => ret request_msg
       end ;;
  data <- recv_result env ;;
  let end_time := end_clock env in
  let rtt := Py.int (end_time - start_time) in
  let self := set_rtt_list self (rtt_list self ++ [rtt]) in
  let self := set_request_count self (request_count self + 1) in
  let server_checksum := calculate_checksum data in
  let server_seq_num := Py.from_bytes (Py.slice data 6 8) in
  if negb (server_checksum =? 65535)%Z then
    ret (self,
         ["WARNING: checksum verification failure for echo reply seqno="
            ++ Py.str server_seq_num])
  else
    ret (set_reply_count self (reply_count self + 1),
         ["PONG " ++ server_ip self ++ ": seq=" ++ Py.str server_seq_num
            ++ " time=" ++ Py.str rtt ++ " ms"]).

(** [send_ping]: the state it leaves, the lines it prints, and the
    exception that escapes it, if any. *)
Definition send_ping (self : PingClient) (env : probe_env) (seq_num : Z)
  : PingClient * list string * option exn :=
  match setup_result env with
  | Some e => (self, [], Some e)
  | None =>
      let banner :=
        if (seq_num =? 1)%Z then ["PING " ++ server_ip self] else [] in
      match send_ping_try self env seq_num with
      | inr (self', lines) => (self', (banner ++ lines)%list, None)
      | inl SocketTimeout =>
          (set_request_count self (request_count self + 1), banner, None)
      | inl e => (self, banner, Some e)
      end
  end.

(** ** Scheduler *)

(** The [for i in range(self.count - 1)] loop: one timer per pass. *)
Fixpoint spawn_timers (passes : nat) (period : Q) (seq_num : Z) : list thread :=
  match passes with
  | O => []
  | S k => Timer period seq_num :: spawn_timers k period (seq_num + 1)
  end.

(** The threads [run] creates and starts, in order. *)
Definition spawn (self : PingClient) : list thread :=
  Thread 1 :: spawn_timers (Z.to_nat (count self - 1)) (period self) 2.

(** The probes whose effects reach the shared state, each a call of
    [send_ping] run to its end before the next one starts.  An exception
    that escapes [send_ping] ends that thread only.  Calls that overlap
    are the subject of [run_interleaved] below. *)
Definition run_probes (self : PingClient) (probes : list (Z * probe_env))
  : PingClient * list string :=
  fold_left
    (fun acc probe =>
       let '(self', lines, _) := send_ping (fst acc) (snd probe) (fst probe) in
       (self', (snd acc ++ lines)%list))
    probes (self, []).

(** [run].  [start_clock] and [end_clock] are the two clock readings,
    [probes] the calls of [send_ping] that took effect before the summary:
    all the spawned threads when the test [joins] below lets [run] join
    them, those that happened to finish otherwise. *)
Definition run (self : PingClient) (start_clock end_clock : Q)
    (probes : list (Z * probe_env))
  : PingClient * list string * option exn :=
  let self := set_total_start self start_clock in
  let self := set_thread_list self (thread_list self ++ spawn self)%list in
  let '(self, lines) := run_probes self probes in
  let self := set_total_end self end_clock in
  match summary_statistics self with
  | inr text => (self, (lines ++ [text])%list, None)
  | inl e => (self, lines, Some e)
  end.

(** [run] joins the threads only under this test. *)
Definition joins (self : PingClient) : bool :=
  (Z.of_nat (List.length (thread_list self ++ spawn self)) =? count self)%Z.


Local Close Scope string_scope.

(** ** Auxiliary definitions for the proofs *)

(** One pass of the loop body on the running sum [s] and bytes [b0 b1]. *)
Definition checksum_step (s : Z) (b0 b1 : byte) : Z :=
  let w := Z.shiftl (Py.byte_val b0 + Z.shiftl (Py.byte_val b1) 8) 8 in
  Z.land (w + s) 0xffff + Z.shiftr (w + s) 16.

(** The 16-bit big-endian word made of two bytes. *)
Definition be16 (b0 b1 : byte) : Z := Py.byte_val b0 * 256 + Py.byte_val b1.

(** The plain sum of the 16-bit big-endian words of a byte string. *)
Fixpoint word_sum (message : list byte) : Z :=
  match message with
  | b0 :: b1 :: rest => be16 b0 b1 + word_sum rest
  | _ => 0
  end.

(** The reference checksum, following the specification's words: the sum
    of the 16-bit big-endian words, any carry beyond 16 bits folded back
    into the low 16 bits, the fold repeated until no carry remains.  One
    fold per byte of input is more than the sum can need. *)
Definition fold16 (x : Z) : Z := Z.land x 0xffff + Z.shiftr x 16.

Fixpoint fold_carry (fuel : nat) (x : Z) : Z :=
  match fuel with
  | O => x
  | S k => if 0xffff <? x then fold_carry k (fold16 x) else x
  end.

Definition ones_complement_sum (message : list byte) : Z :=
  fold_carry (List.length message) (word_sum message).

(** The datagram a call of [send_ping] gets to read, if it gets that far:
    the endpoint was set up, the request was built and sent, and
    [recvfrom] returned before the deadline. *)
Definition reply_of (env : probe_env) (seq_num : Z) : option (list byte) :=
  match setup_result env, build_message (pid env) (build_clock env) seq_num,
        send_result env, recv_result env with
  | None, inr _, None, inr data => Some data
  | _, _, _, _ => None
  end.

(** The round-trip time [send_ping] computes for a reply. *)
Definition measured_rtt (env : probe_env) : Z :=
  Py.int (end_clock env - start_clock env).

(** The lines a reply makes [send_ping] print after the banner. *)
Definition warning_line (data : list byte) : string :=
  ("WARNING: checksum verification failure for echo reply seqno="
     ++ Py.str (Py.from_bytes (Py.slice data 6 8)))%string.

Definition banner (self : PingClient) (seq_num : Z) : list string :=
  if seq_num =? 1 then [("PING " ++ server_ip self)%string] else [].

(** A call of [send_ping] reaches a terminal state (replied, checksum
    invalid or timed out) when it returns instead of raising. *)
Definition reaches_terminal_state (env : probe_env) (seq_num : Z) : Prop :=
  forall self, snd (send_ping self env seq_num) = None.

(** The state after the probes alone. *)
Definition probes_state (self : PingClient) (probes : list (Z * probe_env))
  : PingClient :=
  fst (run_probes self probes).

(** The round-trip times of the probes that got a reply in time, valid or
    not, in the order in which the probes took effect. *)
Definition in_time_rtts (probes : list (Z * probe_env)) : list Z :=
  flat_map
    (fun probe =>
       match reply_of (snd probe) (fst probe) with
       | Some _ => [measured_rtt (snd probe)]
       | None => []
       end)
    probes.

(** The first line of the summary. *)
Definition summary_header (self : PingClient) : string :=
  ("--- " ++ server_ip self ++ " ping statistics ---" ++ nl)%string.

(** The state one probe leaves behind. *)
Definition step (self : PingClient) (probe : Z * probe_env) : PingClient :=
  fst (fst (send_ping self (snd probe) (fst probe))).

(** A probe that got a reply whose checksum the client accepts. *)
Definition valid_reply (probe : Z * probe_env) : Prop :=
  exists data, reply_of (snd probe) (fst probe) = Some data /\
               calculate_checksum data = 65535.

(** The second line of the summary, given the reply ratio. *)
Definition counts_line (self : PingClient) (ratio : Q) : string :=
  (Py.str (request_count self) ++ " transmitted, "
     ++ Py.str (reply_count self) ++ " received, "
     ++ Py.str (Py.round ((1 - ratio) * 100)) ++ "% loss, time "
     ++ Py.str (Py.round (total_end self - total_start self)) ++ " ms"
     ++ nl)%string.

(** The last line of the summary over a list of round-trip times. *)
Definition rtt_line (rtts : list Z) : result string :=
  lo <- Py.min rtts ;;
  mean <- Py.truediv (Py.sum rtts) (Z.of_nat (List.length rtts)) ;;
  hi <- Py.max rtts ;;
  ret ("rtt min/avg/max = " ++ Py.str lo ++ "/" ++ Py.str (Py.round mean)
         ++ "/" ++ Py.str hi ++ " ms")%string.

(** A transport failure of a probe: [e] is raised while the endpoint is
    set up, or by [sendto], or by [recvfrom] once the request is out. *)
Definition transport_failure (env : probe_env) (seq_num : Z) (e : exn) : Prop :=
  setup_result env = Some e \/
  (setup_result env = None /\
   (exists msg, build_message (pid env) (build_clock env) seq_num = inr msg) /\
   (send_result env = Some e \/
    (send_result env = None /\ recv_result env = inl e))).

(** A failure is contained when [send_ping] returns normally and counts
    the probe as sent, as it does for a timeout. *)
Definition contained (self : PingClient) (env : probe_env) (seq_num : Z)
  : Prop :=
  snd (send_ping self env seq_num) = None /\
  request_count (fst (fst (send_ping self env seq_num)))
  = request_count self + 1.

(** ** Sample inputs *)

(** Three probes, one second apart, half a second of timeout. *)
Definition sample_client : PingClient := init "10.0.0.1" 8080 3 1000 500.

(** The request of probe 1 from process 1234 at 1700000000000 ms. *)
Definition sample_request : list byte :=
  [x08; x00; xb9; xbb; x04; xd2; x00; x01; x01; x8b; xcf; xe5; x68; x00].

(** The request of probe 3 at 1700000002000 ms with its last bit flipped. *)
Definition corrupt_reply : list byte :=
  [x08; x00; xb1; xe9; x04; xd2; x00; x03; x01; x8b; xcf; xe5; x6f; xd1].

Definition env_replied : probe_env :=
  {| setup_result := None;
     pid := 1234;
     build_clock := inject_Z 1700000000000;
     start_clock := inject_Z 1700000000000 + (1 # 4);
     send_result := None;
     recv_result := inr sample_request;
     end_clock := inject_Z 1700000000023 |}.

Definition env_timed_out : probe_env :=
  {| setup_result := None;
     pid := 1234;
     build_clock := inject_Z 1700000001000;
     start_clock := inject_Z 1700000001000 + (1 # 4);
     send_result := None;
     recv_result := inl SocketTimeout;
     end_clock := inject_Z 1700000001500 |}.

Definition env_corrupt : probe_env :=
  {| setup_result := None;
     pid := 1234;
     build_clock := inject_Z 1700000002000;
     start_clock := inject_Z 1700000002000 + (1 # 4);
     send_result := None;
     recv_result := inr corrupt_reply;
     end_clock := inject_Z 1700000002051 |}.

Definition env_recv_failed : probe_env :=
  {| setup_result := None;
     pid := 1234;
     build_clock := inject_Z 1700000001000;
     start_clock := inject_Z 1700000001000 + (1 # 4);
     send_result := None;
     recv_result := inl OSError;
     end_clock := inject_Z 1700000001001 |}.

Definition sample_probes : list (Z * probe_env) :=
  [(1, env_replied); (2, env_timed_out); (3, env_corrupt)].

(** ** Probes as concurrent threads

    [run] starts every call of [send_ping] in a thread of its own, a
    [Thread] or a [Timer], and the threads share the client without any
    lock.  What one call does to the shared client and to the console is
    a sequence of accesses.  [list.append] and [print] are one access
    each; the augmented assignments [self.request_count += 1] and
    [self.reply_count += 1] are each a read of the attribute followed by
    a write of the value read plus one, and nothing keeps another thread
    from running between the two.  What the network and the clock do to a
    probe is in its [probe_env], whatever the schedule. *)

Inductive action : Type :=
| AppendRtt (rtt : Z)     (* self.rtt_list.append(rtt) *)
| LoadRequest             (* the read of self.request_count += 1 *)
| StoreRequest            (* its write *)
| LoadReply               (* the read of self.reply_count += 1 *)
| StoreReply              (* its write *)
| Print (line : string).  (* print(...) *)

(** The accesses of the [try] block, in program order. *)
Definition send_ping_try_actions (ip : string) (env : probe_env) (seq_num : Z)
  : result (list action) :=
  request_msg <- build_message (pid env) (build_clock env) seq_num ;;
  let start_time := start_clock env in
  _ <- match send_result env with
       | Some e => raise e
       | None => ret request_msg
       end ;;
  data <- recv_result env ;;
  let end_time := end_clock env in
  let rtt := Py.int (end_time - start_time) in
  let server_checksum := calculate_checksum data in
  let server_seq_num := Py.from_bytes (Py.slice data 6 8) in
  if negb (server_checksum =? 65535) then
    ret [AppendRtt rtt; LoadRequest; StoreRequest;
         Print ("WARNING: checksum verification failure for echo reply seqno="
                  ++ Py.str server_seq_num)%string]
  else
    ret [AppendRtt rtt; LoadRequest; StoreRequest;
         Print ("PONG " ++ ip ++ ": seq=" ++ Py.str server_seq_num
                  ++ " time=" ++ Py.str rtt ++ " ms")%string;
         LoadReply; StoreReply].

(** The accesses of one call of [send_ping]; [ip] is [self.server_ip]. *)
Definition probe_actions (ip : string) (env : probe_env) (seq_num : Z)
  : list action :=
  match setup_result env with
  | Some _ => []
  | None =>
      let banner :=
        if seq_num =? 1 then [Print ("PING " ++ ip)%string] else [] in
      match send_ping_try_actions ip env seq_num with
      | inr actions => banner ++ actions
      | inl SocketTimeout => banner ++ [LoadRequest; StoreRequest]
      | inl _ => banner
      end
  end.

(** A thread: the accesses it has still to make and the values its two
    pending increments have read. *)
Record thread_state : Type := mkThread {
  todo : list action;
  request_reg : Z;
  reply_reg : Z
}.

(** The threads, the client they share and the console. *)
Record config : Type := mkConfig {
  shared : PingClient;
  console : list string;
  threads : list thread_state
}.

(** One access [a] of thread [t], whose remaining accesses are [rest]. *)
Definition perform (a : action) (rest : list action) (t : thread_state)
    (self : PingClient) (out : list string)
  : PingClient * list string * thread_state :=
  match a with
  | AppendRtt rtt =>
      (set_rtt_list self (rtt_list self ++ [rtt]), out,
       mkThread rest (request_reg t) (reply_reg t))
  | LoadRequest =>
      (self, out, mkThread rest (request_count self) (reply_reg t))
  | StoreRequest =>
      (set_request_count self (request_reg t + 1), out,
       mkThread rest (request_reg t) (reply_reg t))
  | LoadReply =>
      (self, out, mkThread rest (request_reg t) (reply_count self))
  | StoreReply =>
      (set_reply_count self (reply_reg t + 1), out,
       mkThread rest (request_reg t) (reply_reg t))
  | Print line =>
      (self, out ++ [line], mkThread rest (request_reg t) (reply_reg t))
  end.

(** Thread number [i] makes its next access; nothing happens when there is
    no such thread or it has finished. *)
Fixpoint step_thread (i : nat) (ts : list thread_state) (self : PingClient)
    (out : list string) {struct ts}
  : PingClient * list string * list thread_state :=
  match ts with
  | [] => (self, out, [])
  | t :: ts' =>
      match i with
      | O =>
          match todo t with
          | [] => (self, out, t :: ts')
          | a :: rest =>
              let '(self', out', t') := perform a rest t self out in
              (self', out', t' :: ts')
          end
      | S j =>
          let '(self', out', ts'') := step_thread j ts' self out in
          (self', out', t :: ts'')
      end
  end.

Definition step_config (c : config) (i : nat) : config :=
  let '(self, out, ts) := step_thread i (threads c) (shared c) (console c) in
  mkConfig self out ts.

(** A schedule names, access by access, the thread that runs next, up to
    the moment the summary is taken: after the last access of the last
    thread when [run] joins its threads, at any moment otherwise. *)
Definition interleave (schedule : list nat) (c : config) : config :=
  fold_left step_config schedule c.

(** The threads of the probes, not yet started, around the client. *)
Definition launch (self : PingClient) (probes : list (Z * probe_env))
  : config :=
  mkConfig self []
    (map (fun probe =>
            mkThread (probe_actions (server_ip self) (snd probe) (fst probe))
                     0 0)
         probes).

(** [run] with its threads interleaved by [schedule]: thread number [i] is
    the call of [send_ping] for the [i]-th probe. *)
Definition run_interleaved (self : PingClient) (start_clock end_clock : Q)
    (probes : list (Z * probe_env)) (schedule : list nat)
  : PingClient * list string * option exn :=
  let self := set_total_start self start_clock in
  let self := set_thread_list self (thread_list self ++ spawn self)%list in
  let c := interleave schedule (launch self probes) in
  let self := set_total_end (shared c) end_clock in
  match summary_statistics self with
  | inr text => (self, (console c ++ [text])%list, None)
  | inl e => (self, console c, Some e)
  end.

(** The threads as [run] has started them, and the configuration the
    summary of [run_interleaved] is taken from. *)
Definition launched (self : PingClient) (start_clock : Q)
    (probes : list (Z * probe_env)) : config :=
  launch (set_thread_list (set_total_start self start_clock)
            (thread_list self ++ spawn self))
         probes.

Definition interleaved (self : PingClient) (start_clock : Q)
    (probes : list (Z * probe_env)) (schedule : list nat) : config :=
  interleave schedule (launched self start_clock probes).

(** A thread run on its own from its first access to its last. *)
Fixpoint perform_all (l : list action) (t : thread_state)
    (self : PingClient) (out : list string)
  : PingClient * list string * thread_state :=
  match l with
  | [] => (self, out, t)
  | a :: rest =>
      let '(self', out', t') := perform a rest t self out in
      perform_all rest t' self' out'
  end.

(** The schedule in which the threads run one after the other, each to
    its end before the next one starts; [i] is the number of the first
    thread of [ts]. *)
Fixpoint serial_from (i : nat) (ts : list thread_state) : list nat :=
  match ts with
  | [] => []
  | t :: ts' => (repeat i (List.length (todo t)) ++ serial_from (S i) ts')%list
  end.

Definition serial (self : PingClient) (probes : list (Z * probe_env))
  : list nat :=
  serial_from 0 (threads (launch self probes)).



(** The accesses of a kind that the threads have still to make. *)
Definition is_store_request (a : action) : bool :=
  match a with StoreRequest => true | _ => false end.

Definition is_store_reply (a : action) : bool :=
  match a with StoreReply => true | _ => false end.

Definition is_append (a : action) : bool :=
  match a with AppendRtt _ => true | _ => false end.

Definition remaining (kind : action -> bool) (ts : list thread_state) : Z :=
  fold_right
    (fun t acc => Z.of_nat (List.length (filter kind (todo t))) + acc) 0 ts.

(** In one call of [send_ping] the round-trip time is appended before the
    reply counter is written. *)
Fixpoint appends_first (l : list action) : bool :=
  match l with
  | [] => true
  | StoreReply :: rest =>
      forallb (fun a => negb (is_append a)) rest && appends_first rest
  | _ :: rest => appends_first rest
  end.

(** The writes of the reply counter that a thread has still to make for
    round-trip times already in the list. *)
Definition owed (l : list action) : Z :=
  Z.max 0 (Z.of_nat (List.length (filter is_store_reply l))
           - Z.of_nat (List.length (filter is_append l))).

Definition owed_replies (ts : list thread_state) : Z :=
  fold_right (fun t acc => owed (todo t) + acc) 0 ts.

(** What a thread may hold in its registers when [pending] writes of the
    request counter are still to come out of [bound], and the list of
    round-trip times is [slack] longer than the writes owed to it. *)
Definition thread_inv (bound pending slack : Z) (t : thread_state) : Prop :=
  0 <= request_reg t /\ request_reg t + pending <= bound /\
  0 <= reply_reg t /\ reply_reg t <= slack /\
  appends_first (todo t) = true.

(** The invariant of the shared counters under every interleaving:
    [bound] is the number of writes of the request counter the threads
    started with, [appends] the number of round-trip times they started
    with. *)
Definition counters_inv (bound appends : Z) (c : config) : Prop :=
  let pending := remaining is_store_request (threads c) in
  let slack :=
    Z.of_nat (List.length (rtt_list (shared c)))
    - owed_replies (threads c) in
  0 <= request_count (shared c) /\
  request_count (shared c) + pending <= bound /\
  (1 <= request_count (shared c) \/ pending = bound) /\
  0 <= reply_count (shared c) /\
  reply_count (shared c) <= slack /\
  Z.of_nat (List.length (rtt_list (shared c)))
  + remaining is_append (threads c) = appends /\
  Forall (thread_inv bound pending slack) (threads c).



(** * Proofs *)

(** *** Arithmetic of one loop step *)

Section Fold.

Lemma byte_val_range (b : byte) : 0 <= Py.byte_val b <= 255.
Proof.
  unfold Py.byte_val. pose proof (Byte.to_N_bounded b). lia.
Qed.

Lemma byte_val_of_Z (z : Z) : 0 <= z <= 255 -> Py.byte_val (Py.byte_of_Z z) = z.
Proof.
  intros Hz. unfold Py.byte_val, Py.byte_of_Z.
  destruct (Byte.of_N (Z.to_N z)) as [b|] eqn:E.
  - apply Byte.to_of_N in E. rewrite E. lia.
  - apply Byte.of_N_None_iff in E. lia.
Qed.

Lemma land_shiftr_fold (x : Z) :
  Z.land x 0xffff + Z.shiftr x 16 = x - 65535 * (x / 65536).
Proof.
  change (Z.land x 0xffff) with (Z.land x (Z.ones 16)).
  rewrite Z.land_ones, Z.shiftr_div_pow2 by lia.
  change (2 ^ 16) with 65536.
  pose proof (Z.div_mod x 65536 ltac:(lia)). lia.
Qed.

Lemma checksum_step_eq (s : Z) (b0 b1 : byte) :
  checksum_step s b0 b1 =
    be16 b0 b1 + s + 65535 * Py.byte_val b1
    - 65535 * ((be16 b0 b1 + s + 65535 * Py.byte_val b1) / 65536).
Proof.
  unfold checksum_step, be16. cbv zeta.
  rewrite land_shiftr_fold, !Z.shiftl_mul_pow2 by lia.
  change (2 ^ 8) with 256.
  replace ((Py.byte_val b0 + Py.byte_val b1 * 256) * 256 + s)
    with (Py.byte_val b0 * 256 + Py.byte_val b1 + s + 65535 * Py.byte_val b1)
    by lia.
  reflexivity.
Qed.

Lemma be16_range (b0 b1 : byte) : 0 <= be16 b0 b1 <= 65535.
Proof.
  unfold be16. pose proof (byte_val_range b0). pose proof (byte_val_range b1).
  lia.
Qed.

(** The running sum never leaves [0 .. 0x100fe]. *)
Lemma checksum_step_range (s : Z) (b0 b1 : byte) :
  0 <= s <= 65790 -> 0 <= checksum_step s b0 b1 <= 65790.
Proof.
  intros Hs. rewrite checksum_step_eq.
  pose proof (byte_val_range b0) as H0. pose proof (byte_val_range b1) as H1.
  unfold be16.
  set (x := Py.byte_val b0 * 256 + Py.byte_val b1 + s + 65535 * Py.byte_val b1).
  assert (Hx : 0 <= x <= 16776960 + 65790) by (unfold x; lia).
  pose proof (Z.div_mod x 65536 ltac:(lia)) as Hd.
  pose proof (Z.mod_pos_bound x 65536 ltac:(lia)) as Hm.
  assert (Hq : 0 <= x / 65536 <= 256) by lia.
  assert (x / 65536 = 256 \/ x / 65536 <= 255) as [Hq' | Hq'] by lia; lia.
Qed.

Lemma checksum_step_pos (s : Z) (b0 b1 : byte) :
  0 <= s -> 0 < s \/ 0 < be16 b0 b1 -> 0 < checksum_step s b0 b1.
Proof.
  intros Hs Hpos. rewrite checksum_step_eq.
  pose proof (byte_val_range b0) as H0. pose proof (byte_val_range b1) as H1.
  unfold be16 in *.
  set (x := Py.byte_val b0 * 256 + Py.byte_val b1 + s + 65535 * Py.byte_val b1).
  assert (Hx : 0 < x) by (unfold x; lia).
  pose proof (Z.div_mod x 65536 ltac:(lia)) as Hd.
  pose proof (Z.mod_pos_bound x 65536 ltac:(lia)) as Hm.
  assert (Hq : 0 <= x / 65536) by lia.
  lia.
Qed.

End Fold.


(** *** The checksum loop *)

Section Loop.

Lemma list_pair_ind (P : list byte -> Prop) :
  P [] ->
  (forall b, P [b]) ->
  (forall b0 b1 rest, P rest -> P (b0 :: b1 :: rest)) ->
  forall m, P m.
Proof.
  intros Hnil Hone Hstep m.
  enough (P m /\ forall b, P (b :: m)) by tauto.
  induction m as [|a m [IH1 IH2]]; split; auto.
Qed.

Lemma checksum_loop_step (s : Z) (b0 b1 : byte) (rest : list byte) :
  checksum_loop s (b0 :: b1 :: rest)
  = checksum_loop (checksum_step s b0 b1) rest.
Proof. reflexivity. Qed.

Lemma word_sum_nonneg (m : list byte) : 0 <= word_sum m.
Proof.
  induction m using list_pair_ind; cbn [word_sum]; try lia.
  pose proof (be16_range b0 b1). lia.
Qed.


Lemma checksum_loop_range (m : list byte) :
  forall s, 0 <= s <= 65790 -> 0 <= checksum_loop s m <= 65790.
Proof.
  induction m using list_pair_ind; intros s Hs; try exact Hs.
  rewrite checksum_loop_step. apply IHm, checksum_step_range, Hs.
Qed.

(** The loop computes the word sum modulo [0xffff]. *)
Lemma checksum_loop_congr (m : list byte) :
  forall s, exists k, checksum_loop s m = s + word_sum m + 65535 * k.
Proof.
  induction m using list_pair_ind; intros s;
    try (exists 0; cbn [checksum_loop word_sum]; lia).
  rewrite checksum_loop_step. cbn [word_sum].
  destruct (IHm (checksum_step s b0 b1)) as [k Hk]. rewrite Hk.
  rewrite checksum_step_eq.
  eexists (k + Py.byte_val b1
           - (be16 b0 b1 + s + 65535 * Py.byte_val b1) / 65536).
  lia.
Qed.

Lemma checksum_loop_pos (m : list byte) :
  forall s, 0 <= s -> 0 < s \/ 0 < word_sum m -> 0 < checksum_loop s m.
Proof.
  induction m using list_pair_ind; intros s Hs Hpos;
    try (cbn [checksum_loop word_sum] in *; lia).
  rewrite checksum_loop_step. cbn [word_sum] in Hpos.
  pose proof (be16_range b0 b1). pose proof (word_sum_nonneg m).
  assert (0 < s \/ 0 < be16 b0 b1 \/ 0 < word_sum m) as [H1|[H1|H1]] by lia.
  - apply IHm.
    + pose proof (checksum_step_pos s b0 b1 Hs (or_introl H1)). lia.
    + left. apply checksum_step_pos; auto.
  - apply IHm.
    + pose proof (checksum_step_pos s b0 b1 Hs (or_intror H1)). lia.
    + left. apply checksum_step_pos; auto.
  - assert (0 <= checksum_step s b0 b1).
    { rewrite checksum_step_eq.
      pose proof (byte_val_range b1).
      set (x := be16 b0 b1 + s + 65535 * Py.byte_val b1).
      assert (0 <= x) by (unfold x; lia).
      pose proof (Z.div_mod x 65536 ltac:(lia)).
      pose proof (Z.mod_pos_bound x 65536 ltac:(lia)). lia. }
    apply IHm; auto.
Qed.


Lemma calculate_checksum_range (m : list byte) :
  0 <= calculate_checksum m <= 65790.
Proof. apply checksum_loop_range. lia. Qed.

End Loop.

(** *** The reference checksum *)

Section Reference.








End Reference.

(** *** Building a request *)

Section Build.

Lemma to_bytes_ok (n : Z) (len : nat) (bs : list byte) :
  Py.to_bytes n len = inr bs ->
  0 <= n < 256 ^ Z.of_nat len /\ bs = Py.be_bytes len n.
Proof.
  unfold Py.to_bytes, raise, ret.
  destruct (Z.ltb_spec n 0); cbn [orb]; [discriminate|].
  destruct (Z.leb_spec (256 ^ Z.of_nat len) n); [discriminate|].
  intros [= <-]. split; [lia | reflexivity].
Qed.

Lemma to_bytes_raises (n : Z) (len : nat) :
  n < 0 \/ 256 ^ Z.of_nat len <= n -> Py.to_bytes n len = inl OverflowError.
Proof.
  unfold Py.to_bytes, raise, ret. intros Hn.
  destruct (Z.ltb_spec n 0); cbn [orb]; [reflexivity|].
  destruct (Z.leb_spec (256 ^ Z.of_nat len) n); [reflexivity|lia].
Qed.

Lemma be_bytes_2 (n : Z) :
  0 <= n < 65536 ->
  exists c0 c1, Py.be_bytes 2 n = [c0; c1] /\ be16 c0 c1 = n.
Proof.
  intros Hn.
  exists (Py.byte_of_Z ((n / 256) mod 256)), (Py.byte_of_Z (n mod 256)).
  split; [reflexivity|].
  unfold be16.
  pose proof (Z.mod_pos_bound n 256 ltac:(lia)).
  pose proof (Z.mod_pos_bound (n / 256) 256 ltac:(lia)).
  rewrite !byte_val_of_Z by lia.
  pose proof (Z.div_mod n 256 ltac:(lia)).
  assert (0 <= n / 256 < 256) by lia.
  rewrite (Z.mod_small (n / 256)) by lia. lia.
Qed.

(** A message that [build_message] returns has the draft's bytes around a
    checksum field holding the flipped checksum of the draft. *)
Lemma build_message_inv (pid : Z) (clock : Q) (seq_num : Z) (m : list byte) :
  build_message pid clock seq_num = inr m ->
  exists c0 c1 rest,
    m = x08 :: x00 :: c0 :: c1 :: rest /\
    calculate_checksum (x08 :: x00 :: x00 :: x00 :: rest) <= 65535 /\
    be16 c0 c1
    = bit_flip (calculate_checksum (x08 :: x00 :: x00 :: x00 :: rest)).
Proof.
  unfold build_message, bind, ret.
  destruct (Py.to_bytes (pid mod 65536) 2) as [e|ident]; [discriminate|].
  change (Py.to_bytes 0 2) with (@inr exn _ [x00; x00]). cbv beta iota.
  destruct (Py.to_bytes seq_num 2) as [e|seqb]; [discriminate|].
  destruct (Py.to_bytes (Py.int clock) 6) as [e|stamp]; [discriminate|].
  cbn [app].
  set (draft := x08 :: x00 :: x00 :: x00 :: (ident ++ seqb ++ stamp)%list).
  destruct (Py.to_bytes (bit_flip (calculate_checksum draft)) 2)
    as [e|cks] eqn:E; [discriminate|].
  intros [= <-].
  apply to_bytes_ok in E. destruct E as [Hr ->].
  change (256 ^ Z.of_nat 2) with 65536 in Hr.
  destruct (be_bytes_2 _ Hr) as (c0 & c1 & Hb & Hv).
  exists c0, c1, (ident ++ seqb ++ stamp)%list.
  rewrite Hb. cbn [app]. fold draft.
  repeat split; auto. unfold bit_flip in Hr. lia.
Qed.

(** Round trip: whatever [build_message] returns sums to [0xffff]. *)
Lemma build_message_valid (pid : Z) (clock : Q) (seq_num : Z)
    (m : list byte) :
  build_message pid clock seq_num = inr m -> calculate_checksum m = 65535.
Proof.
  intros H. apply build_message_inv in H.
  destruct H as (c0 & c1 & rest & -> & Hfit & Hv).
  unfold calculate_checksum in *. unfold bit_flip in Hv.
  rewrite !checksum_loop_step in *.
  change (checksum_step 0 x08 x00) with 2048 in *.
  change (checksum_step 2048 x00 x00) with 2048 in *.
  destruct (checksum_loop_congr rest 2048) as [k1 Hk1].
  destruct (checksum_loop_congr rest (checksum_step 2048 c0 c1)) as [k2 Hk2].
  pose proof (checksum_step_range 2048 c0 c1 ltac:(lia)) as Hs.
  pose proof (checksum_step_pos 2048 c0 c1 ltac:(lia) ltac:(lia)) as Hp.
  pose proof (checksum_loop_range rest _ Hs) as Hrange.
  pose proof (checksum_loop_pos rest _ (proj1 Hs) (or_introl Hp)) as Hpos.
  pose proof (checksum_step_eq 2048 c0 c1) as Heq.
  set (q := (be16 c0 c1 + 2048 + 65535 * Py.byte_val c1) / 65536) in Heq.
  lia.
Qed.

End Build.

(** *** One probe *)

Section Probe.

(** Case analysis along the control flow of [send_ping]; [tac] closes
    the finished branches. *)
Ltac probe_cases env tac :=
  unfold send_ping, send_ping_try, reply_of, bind, ret, raise in *;
  destruct (setup_result env) as [[]|]; cbn [fst snd] in *;
  try solve [tac];
  destruct (build_message _ _ _) as [[]|?]; cbn [fst snd] in *;
  try solve [tac];
  destruct (send_result env) as [[]|]; cbn [fst snd] in *;
  try solve [tac];
  destruct (recv_result env) as [[]|?]; cbn [fst snd] in *;
  try solve [tac].

(** What [send_ping] does with a datagram that arrived in time. *)
Lemma send_ping_reply (self : PingClient) (env : probe_env) (seq_num : Z)
    (data : list byte) :
  reply_of env seq_num = Some data ->
  send_ping self env seq_num =
    let counted :=
      set_request_count
        (set_rtt_list self (rtt_list self ++ [measured_rtt env]))
        (request_count self + 1) in
    if calculate_checksum data =? 65535
    then (set_reply_count counted (reply_count self + 1),
          banner self seq_num
            ++ [("PONG " ++ server_ip self ++ ": seq="
                   ++ Py.str (Py.from_bytes (Py.slice data 6 8))
                   ++ " time=" ++ Py.str (measured_rtt env) ++ " ms")%string],
          None)
    else (counted, banner self seq_num ++ [warning_line data], None).
Proof.
  intros H. probe_cases env discriminate. injection H as ->.
  destruct (calculate_checksum data =? 65535); reflexivity.
Qed.

(** Without a reply the state changes by at most the request counter. *)
Lemma send_ping_no_reply (self : PingClient) (env : probe_env) (seq_num : Z) :
  reply_of env seq_num = None ->
  (snd (send_ping self env seq_num) = None /\
   fst (fst (send_ping self env seq_num))
   = set_request_count self (request_count self + 1)) \/
  (snd (send_ping self env seq_num) <> None /\
   fst (fst (send_ping self env seq_num)) = self).
Proof.
  intros H.
  probe_cases env
    ltac:(first [ discriminate
                | left; split; reflexivity
                | right; split; [discriminate|reflexivity] ]).
Qed.

End Probe.

(** *** The effect of a probe on the shared state *)

Section Step.

Variable self : PingClient.
Variable probe : Z * probe_env.

Let added : list Z :=
  match reply_of (snd probe) (fst probe) with
  | Some _ => [measured_rtt (snd probe)]
  | None => []
  end.

Lemma step_cases :
  (exists data, reply_of (snd probe) (fst probe) = Some data /\
     snd (send_ping self (snd probe) (fst probe)) = None /\
     step self probe =
       let counted :=
         set_request_count
           (set_rtt_list self (rtt_list self ++ [measured_rtt (snd probe)]))
           (request_count self + 1) in
       if calculate_checksum data =? 65535
       then set_reply_count counted (reply_count self + 1)
       else counted) \/
  (reply_of (snd probe) (fst probe) = None /\
     snd (send_ping self (snd probe) (fst probe)) = None /\
     step self probe = set_request_count self (request_count self + 1)) \/
  (reply_of (snd probe) (fst probe) = None /\
     snd (send_ping self (snd probe) (fst probe)) <> None /\
     step self probe = self).
Proof.
  unfold step.
  destruct (reply_of (snd probe) (fst probe)) as [data|] eqn:E.
  - left. exists data. rewrite (send_ping_reply self _ _ data E). cbv zeta.
    destruct (calculate_checksum data =? 65535); auto.
  - right. destruct (send_ping_no_reply self _ _ E) as [[H1 H2]|[H1 H2]];
      [left|right]; auto.
Qed.

Lemma step_frame :
  server_ip (step self probe) = server_ip self /\
  count (step self probe) = count self /\
  thread_list (step self probe) = thread_list self /\
  total_start (step self probe) = total_start self /\
  total_end (step self probe) = total_end self.
Proof.
  destruct step_cases as [(data & _ & _ & ->)|[(_ & _ & ->)|(_ & _ & ->)]];
    cbv zeta; try destruct (calculate_checksum data =? 65535);
    repeat split; reflexivity.
Qed.

Lemma step_rtt_list : rtt_list (step self probe) = (rtt_list self ++ added)%list.
Proof.
  unfold added.
  destruct step_cases as [(data & -> & _ & ->)|[(-> & _ & ->)|(-> & _ & ->)]];
    cbv zeta; try destruct (calculate_checksum data =? 65535);
    cbn; rewrite ?app_nil_r; reflexivity.
Qed.

Lemma step_request_count :
  request_count (step self probe)
  = request_count self
    + match snd (send_ping self (snd probe) (fst probe)) with
      | None => 1
      | Some _ => 0
      end.
Proof.
  destruct step_cases as [(data & _ & -> & ->)|[(_ & -> & ->)|(_ & Hne & ->)]];
    cbv zeta; try destruct (calculate_checksum data =? 65535);
    cbn; try reflexivity.
  destruct (snd (send_ping self (snd probe) (fst probe))); [lia|tauto].
Qed.

Lemma step_reply_count :
  reply_count self <= reply_count (step self probe)
  <= reply_count self + Z.of_nat (List.length added).
Proof.
  unfold added.
  destruct step_cases as [(data & -> & _ & ->)|[(-> & _ & ->)|(-> & _ & ->)]];
    cbv zeta; try destruct (calculate_checksum data =? 65535);
    cbn; lia.
Qed.

Lemma step_valid_reply :
  valid_reply probe -> reply_count (step self probe) = reply_count self + 1.
Proof.
  intros (data & E & Hv).
  destruct step_cases as [(d & E' & _ & ->)|[(E' & _)|(E' & _)]];
    try congruence.
  assert (d = data) as -> by congruence.
  cbv zeta. rewrite Hv. reflexivity.
Qed.

End Step.

(** *** A whole run *)

Section Run.

Lemma run_probes_state (probes : list (Z * probe_env)) :
  forall self lines,
    fst (fold_left
           (fun acc probe =>
              let '(self', out, _) :=
                send_ping (fst acc) (snd probe) (fst probe) in
              (self', (snd acc ++ out)%list))
           probes (self, lines))
    = fold_left step probes self.
Proof.
  induction probes as [|p ps IH]; intros self lines; cbn [fold_left fst snd].
  - reflexivity.
  - unfold step at 2.
    destruct (send_ping self (snd p) (fst p)) as [[st out] e].
    apply IH.
Qed.

Lemma probes_state_fold (self : PingClient) (probes : list (Z * probe_env)) :
  probes_state self probes = fold_left step probes self.
Proof. apply run_probes_state. Qed.

Lemma probes_state_cons (self : PingClient) (p : Z * probe_env)
    (ps : list (Z * probe_env)) :
  probes_state self (p :: ps) = probes_state (step self p) ps.
Proof. rewrite !probes_state_fold. reflexivity. Qed.

Lemma probes_state_nil (self : PingClient) : probes_state self [] = self.
Proof. reflexivity. Qed.

Lemma probes_frame (probes : list (Z * probe_env)) :
  forall self,
    server_ip (probes_state self probes) = server_ip self /\
    count (probes_state self probes) = count self /\
    thread_list (probes_state self probes) = thread_list self /\
    total_start (probes_state self probes) = total_start self /\
    total_end (probes_state self probes) = total_end self.
Proof.
  induction probes as [|p ps IH]; intros self.
  - repeat split; reflexivity.
  - rewrite probes_state_cons.
    destruct (IH (step self p)) as (-> & -> & -> & -> & ->).
    apply step_frame.
Qed.

(** Every reply that came in time left its round-trip time in the list. *)
Lemma probes_rtt_list (probes : list (Z * probe_env)) :
  forall self,
    rtt_list (probes_state self probes)
    = (rtt_list self ++ in_time_rtts probes)%list.
Proof.
  induction probes as [|p ps IH]; intros self.
  - cbn. rewrite app_nil_r. reflexivity.
  - rewrite probes_state_cons, IH, step_rtt_list.
    unfold in_time_rtts. cbn [flat_map]. rewrite app_assoc. reflexivity.
Qed.

Lemma probes_request_count_mono (probes : list (Z * probe_env)) :
  forall self, request_count self <= request_count (probes_state self probes).
Proof.
  induction probes as [|p ps IH]; intros self.
  - cbn. lia.
  - rewrite probes_state_cons. specialize (IH (step self p)).
    rewrite step_request_count in IH.
    destruct (snd (send_ping self (snd p) (fst p))); lia.
Qed.

(** Each probe that reaches a terminal state is counted once. *)
Lemma probes_request_count_all (probes : list (Z * probe_env)) :
  Forall (fun p => reaches_terminal_state (snd p) (fst p)) probes ->
  forall self,
    request_count (probes_state self probes)
    = request_count self + Z.of_nat (List.length probes).
Proof.
  induction 1 as [|p ps Hp _ IH]; intros self.
  - cbn. lia.
  - rewrite probes_state_cons, IH, step_request_count, (Hp self).
    cbn [List.length]. lia.
Qed.

Lemma probes_request_count_some (probes : list (Z * probe_env)) :
  Exists (fun p => reaches_terminal_state (snd p) (fst p)) probes ->
  forall self,
    request_count self + 1 <= request_count (probes_state self probes).
Proof.
  induction 1 as [p ps Hp|p ps _ IH]; intros self;
    rewrite probes_state_cons.
  - pose proof (probes_request_count_mono ps (step self p)) as Hm.
    rewrite step_request_count, (Hp self) in Hm. lia.
  - specialize (IH (step self p)). rewrite step_request_count in IH.
    destruct (snd (send_ping self (snd p) (fst p))); lia.
Qed.

Lemma probes_reply_count (probes : list (Z * probe_env)) :
  forall self,
    reply_count self <= reply_count (probes_state self probes)
    <= reply_count self + Z.of_nat (List.length (in_time_rtts probes)).
Proof.
  induction probes as [|p ps IH]; intros self.
  - cbn. lia.
  - rewrite probes_state_cons. specialize (IH (step self p)).
    pose proof (step_reply_count self p) as Hs.
    unfold in_time_rtts in *. cbn [flat_map]. rewrite length_app.
    cbv zeta in Hs. lia.
Qed.

Lemma probes_reply_count_some (probes : list (Z * probe_env)) :
  Exists valid_reply probes ->
  forall self, reply_count self + 1 <= reply_count (probes_state self probes).
Proof.
  induction 1 as [p ps Hp|p ps _ IH]; intros self;
    rewrite probes_state_cons.
  - pose proof (probes_reply_count ps (step self p)) as Hm.
    rewrite (step_valid_reply self p Hp) in Hm. lia.
  - specialize (IH (step self p)).
    pose proof (step_reply_count self p). lia.
Qed.

Lemma run_eq (self : PingClient) (start_clock end_clock : Q)
    (probes : list (Z * probe_env)) :
  let started :=
    set_thread_list (set_total_start self start_clock)
      (thread_list self ++ spawn self) in
  let final := set_total_end (probes_state started probes) end_clock in
  run self start_clock end_clock probes =
    match summary_statistics final with
    | inr text => (final, (snd (run_probes started probes) ++ [text])%list, None)
    | inl e => (final, snd (run_probes started probes), Some e)
    end.
Proof.
  cbv zeta. unfold run, probes_state.
  change (thread_list (set_total_start self start_clock)) with (thread_list self).
  change (spawn (set_total_start self start_clock)) with (spawn self).
  destruct (run_probes _ probes) as [st out]. reflexivity.
Qed.

End Run.

(** *** The summary *)

Section Summary.

Local Open Scope string_scope.

Lemma append_assoc (a b c : string) : (a ++ b) ++ c = a ++ b ++ c.
Proof. induction a as [|ch a IH]; cbn; [reflexivity | now rewrite IH]. Qed.

Lemma truediv_zero (a : Z) : Py.truediv a 0 = inl ZeroDivisionError.
Proof. reflexivity. Qed.

Lemma truediv_ok (a b : Z) :
  b <> 0%Z -> Py.truediv a b = inr (inject_Z a / inject_Z b)%Q.
Proof.
  intros Hb. unfold Py.truediv. destruct (Z.eqb_spec b 0); [tauto|reflexivity].
Qed.

Lemma rtt_line_ok (rtts : list Z) :
  rtts <> [] -> exists text, rtt_line rtts = inr text.
Proof.
  destruct rtts as [|x t]; [tauto|]. intros _.
  unfold rtt_line, bind, ret. cbn [Py.min Py.max ret].
  rewrite truediv_ok by (cbn [List.length]; lia). eauto.
Qed.

Lemma rtt_line_empty : rtt_line [] = inl ValueError.
Proof. reflexivity. Qed.

Lemma summary_statistics_zero (self : PingClient) :
  request_count self = 0%Z -> summary_statistics self = inl ZeroDivisionError.
Proof.
  intros H. unfold summary_statistics. rewrite H, truediv_zero. reflexivity.
Qed.

(** The summary, once the loss division has gone through. *)
Lemma summary_statistics_eq (self : PingClient) :
  request_count self <> 0%Z ->
  summary_statistics self =
    let ratio := (inject_Z (reply_count self)
                  / inject_Z (request_count self))%Q in
    let display_str := summary_header self ++ counts_line self ratio in
    if (reply_count self =? 0)%Z
    then inr (display_str ++ "rtt min/avg/max = 0/0/0 ms")
    else line <- rtt_line (rtt_list self) ;; ret (display_str ++ line).
Proof.
  intros H. unfold summary_statistics. rewrite truediv_ok by assumption.
  cbv zeta. unfold bind at 1.
  fold (summary_header self).
  fold (counts_line self
          (inject_Z (reply_count self) / inject_Z (request_count self))%Q).
  destruct (reply_count self =? 0)%Z; cbn [negb]; [reflexivity|].
  unfold rtt_line, bind, ret.
  destruct (Py.min (rtt_list self)); [reflexivity|].
  destruct (Py.truediv _ _); [reflexivity|].
  destruct (Py.max (rtt_list self)); reflexivity.
Qed.

Lemma summary_statistics_transmitted (self : PingClient) :
  request_count self <> 0%Z ->
  (reply_count self <> 0%Z -> rtt_list self <> []) ->
  exists rest,
    summary_statistics self =
      inr (summary_header self ++ Py.str (request_count self)
             ++ " transmitted, " ++ rest).
Proof.
  intros Hreq Hrtt. rewrite summary_statistics_eq by assumption. cbv zeta.
  unfold counts_line.
  destruct (Z.eqb_spec (reply_count self) 0) as [Hz|Hnz].
  - eexists. rewrite !append_assoc. reflexivity.
  - destruct (rtt_line_ok _ (Hrtt Hnz)) as [line ->]. unfold bind, ret.
    eexists. rewrite !append_assoc. reflexivity.
Qed.

End Summary.

(** *** The threads of a run *)

Section Spawn.

Lemma spawn_timers_length (passes : nat) (per : Q) (n : Z) :
  List.length (spawn_timers passes per n) = passes.
Proof.
  revert n; induction passes as [|k IH]; intros n; cbn; [|rewrite IH];
    reflexivity.
Qed.

Lemma spawn_length (self : PingClient) :
  1 <= count self -> Z.of_nat (List.length (spawn self)) = count self.
Proof.
  intros H. unfold spawn. cbn [List.length].
  rewrite spawn_timers_length. lia.
Qed.

(** Every timer is created with the same interval. *)
Lemma spawn_timers_interval (passes : nat) (per : Q) (n : Z) (t : thread) :
  In t (spawn_timers passes per n) -> dispatch_delay t = per.
Proof.
  revert n; induction passes as [|k IH]; intros n; cbn; [tauto|].
  intros [<-|H]; [reflexivity | eauto].
Qed.

Lemma spawn_timers_seq (passes : nat) (per : Q) (n : Z) :
  map thread_seq (spawn_timers passes per n)
  = map (fun i => n + Z.of_nat i) (seq 0 passes).
Proof.
  revert n; induction passes as [|k IH]; intros n; [reflexivity|].
  cbn [spawn_timers map seq thread_seq]. rewrite IH, <- seq_shift, map_map.
  f_equal; [lia|]. apply map_ext. intros i. lia.
Qed.

Lemma joins_init (ip : string) (port N per tmo : Z) :
  1 <= N -> joins (init ip port N per tmo) = true.
Proof.
  intros H. unfold joins. cbn [thread_list init app].
  rewrite (spawn_length (init ip port N per tmo) H). apply Z.eqb_refl.
Qed.

End Spawn.

(** *** Probes as concurrent threads *)

Section Interleaving.

Lemma remaining_app (kind : action -> bool) (pre post : list thread_state) :
  remaining kind (pre ++ post) = remaining kind pre + remaining kind post.
Proof.
  induction pre as [|t pre IH]; cbn [app remaining fold_right].
  - reflexivity.
  - fold (remaining kind (pre ++ post)). fold (remaining kind pre). lia.
Qed.

Lemma remaining_cons (kind : action -> bool) (t : thread_state)
    (ts : list thread_state) :
  remaining kind (t :: ts)
  = Z.of_nat (List.length (filter kind (todo t))) + remaining kind ts.
Proof. reflexivity. Qed.

Lemma remaining_nonneg (kind : action -> bool) (ts : list thread_state) :
  0 <= remaining kind ts.
Proof.
  induction ts as [|t ts IH]; [cbn; lia|]. rewrite remaining_cons. lia.
Qed.

Lemma owed_replies_app (pre post : list thread_state) :
  owed_replies (pre ++ post) = owed_replies pre + owed_replies post.
Proof.
  induction pre as [|t pre IH]; cbn [app owed_replies fold_right].
  - reflexivity.
  - fold (owed_replies (pre ++ post)). fold (owed_replies pre). lia.
Qed.

Lemma owed_replies_cons (t : thread_state) (ts : list thread_state) :
  owed_replies (t :: ts) = owed (todo t) + owed_replies ts.
Proof. reflexivity. Qed.

Lemma owed_nonneg (l : list action) : 0 <= owed l.
Proof. unfold owed. lia. Qed.

Lemma owed_replies_nonneg (ts : list thread_state) : 0 <= owed_replies ts.
Proof.
  induction ts as [|t ts IH]; [cbn; lia|]. rewrite owed_replies_cons.
  pose proof (owed_nonneg (todo t)). lia.
Qed.


(** A step either leaves everything as it is or performs the first
    pending access of the thread it names. *)
Lemma step_thread_cases (i : nat) (ts : list thread_state)
    (self : PingClient) (out : list string) :
  step_thread i ts self out = (self, out, ts) \/
  exists pre t post a rest,
    ts = pre ++ t :: post /\ List.length pre = i /\ todo t = a :: rest /\
    step_thread i ts self out =
      (fst (fst (perform a rest t self out)),
       snd (fst (perform a rest t self out)),
       pre ++ snd (perform a rest t self out) :: post).
Proof.
  revert i. induction ts as [|t ts IH]; intros i; [left; reflexivity|].
  destruct i as [|j]; cbn [step_thread].
  - destruct (todo t) as [|a rest] eqn:E; [left; reflexivity|].
    right. exists [], t, ts, a, rest.
    destruct (perform a rest t self out) as [[self' out'] t'].
    repeat split; assumption.
  - destruct (IH j) as [H | (pre & u & post & a & rest & -> & Hl & Hu & H)];
      rewrite H.
    + left. reflexivity.
    + right. exists (t :: pre), u, post, a, rest.
      cbn [List.length app]. repeat split; try assumption. now f_equal.
Qed.

Lemma filter_none {A : Type} (k : A -> bool) (l : list A) :
  forallb (fun a => negb (k a)) l = true -> filter k l = [].
Proof.
  induction l as [|a l IH]; [reflexivity|]. cbn [forallb filter].
  intros H. apply andb_prop in H. destruct H as [Ha Hl].
  destruct (k a); [discriminate|]. auto.
Qed.

Lemma appends_first_tail (a : action) (rest : list action) :
  appends_first (a :: rest) = true -> appends_first rest = true.
Proof.
  destruct a; cbn [appends_first]; try tauto.
  intros H. apply andb_prop in H. tauto.
Qed.

Lemma owed_store_reply (rest : list action) :
  appends_first (StoreReply :: rest) = true ->
  owed (StoreReply :: rest) = 1 + owed rest.
Proof.
  cbn [appends_first]. intros H. apply andb_prop in H. destruct H as [H _].
  unfold owed. cbn [filter is_store_reply is_append].
  rewrite (filter_none _ _ H). cbn [List.length]. lia.
Qed.

Lemma thread_inv_mono (bound pending pending' slack slack' : Z)
    (t : thread_state) :
  pending' <= pending -> slack <= slack' ->
  thread_inv bound pending slack t -> thread_inv bound pending' slack' t.
Proof. unfold thread_inv. intuition lia. Qed.

Lemma threads_inv_mono (bound pending pending' slack slack' : Z)
    (ts : list thread_state) :
  pending' <= pending -> slack <= slack' ->
  Forall (thread_inv bound pending slack) ts ->
  Forall (thread_inv bound pending' slack') ts.
Proof.
  intros Hp Hs. apply Forall_impl. intros t.
  now apply thread_inv_mono.
Qed.

(** Every access of every thread keeps the invariant. *)
Lemma step_config_inv (bound appends : Z) (c : config) (i : nat) :
  counters_inv bound appends c ->
  counters_inv bound appends (step_config c i).
Proof.
  destruct c as [self out ts]. unfold step_config.
  cbn [threads shared console].
  destruct (step_thread_cases i ts self out)
    as [H | (pre & t & post & a & rest & -> & _ & Ht & H)];
    rewrite H; [tauto|]. clear H.
  unfold counters_inv. cbn [threads shared console].
  rewrite !remaining_app, !remaining_cons, !owed_replies_app,
    !owed_replies_cons, Ht.
  intros (Hq0 & Hq & Hq1 & Hp0 & Hp & Ha & Hall).
  apply Forall_app in Hall. destruct Hall as [Hpre Hrest].
  apply Forall_cons_iff in Hrest. destruct Hrest as [Hthr Hpost].
  pose proof Hthr as (Hr0 & Hr & Hs0 & Hs & Hwf). rewrite Ht in Hwf.
  pose proof (appends_first_tail _ _ Hwf) as Hwf'.
  pose proof (owed_nonneg rest) as Ho.
  assert (Hstore : a = StoreReply -> owed (a :: rest) = 1 + owed rest)
    by (intros ->; now apply owed_store_reply).
  destruct a; cbn [perform fst snd todo request_reg reply_reg];
    cbn [set_rtt_list set_request_count set_reply_count
         request_count reply_count rtt_list];
    try rewrite length_app; cbn [List.length];
    try (specialize (Hstore eq_refl); rewrite Hstore in *);
    unfold owed in *;
    cbn [filter is_store_request is_store_reply is_append List.length] in *;
    (repeat split; try lia;
     [apply Forall_app; split;
      [|apply Forall_cons;
        [unfold thread_inv;
         cbn [todo request_reg reply_reg]; repeat split; try assumption;
         try lia|]];
      (eapply threads_inv_mono; [| |eassumption]; lia)]).
Qed.

Lemma interleave_inv (bound appends : Z) (schedule : list nat) (c : config) :
  counters_inv bound appends c ->
  counters_inv bound appends (interleave schedule c).
Proof.
  unfold interleave. revert c.
  induction schedule as [|i schedule IH]; intros c H; [exact H|].
  cbn [fold_left]. apply IH, step_config_inv, H.
Qed.

Ltac probe_actions_cases env seq_num :=
  unfold probe_actions, send_ping_try_actions, bind, ret, raise;
  destruct (setup_result env); [cbn; auto with zarith|];
  destruct (build_message (pid env) (build_clock env) seq_num) as [[]|msg];
  destruct (seq_num =? 1);
  try solve [cbn; auto with zarith];
  destruct (send_result env) as [[]|];
  try solve [cbn; auto with zarith];
  destruct (recv_result env) as [[]|data];
  try solve [cbn; auto with zarith];
  destruct (negb (calculate_checksum data =? 65535));
  try solve [cbn; auto with zarith].

(** What one call of [send_ping] does to the shared client: at most one
    write of the request counter, at most one round-trip time, a write of
    the reply counter only after a round-trip time. *)
Lemma probe_actions_counts (ip : string) (env : probe_env) (seq_num : Z) :
  (List.length (filter is_store_request (probe_actions ip env seq_num))
   <= 1)%nat /\
  (List.length (filter is_append (probe_actions ip env seq_num)) <= 1)%nat /\
  owed (probe_actions ip env seq_num) = 0 /\
  appends_first (probe_actions ip env seq_num) = true.
Proof.
  unfold owed. probe_actions_cases env seq_num.
Qed.


Lemma launch_threads (self : PingClient) (probes : list (Z * probe_env)) :
  threads (launch self probes)
  = map (fun probe =>
           mkThread (probe_actions (server_ip self) (snd probe) (fst probe))
                    0 0)
        probes.
Proof. reflexivity. Qed.

(** The threads of [n] probes start with at most [n] writes of the request
    counter and at most [n] round-trip times to come, and owe nothing. *)
Lemma launch_remaining (self : PingClient) (probes : list (Z * probe_env)) :
  remaining is_store_request (threads (launch self probes))
  <= Z.of_nat (List.length probes) /\
  remaining is_append (threads (launch self probes))
  <= Z.of_nat (List.length probes) /\
  owed_replies (threads (launch self probes)) = 0 /\
  Forall (fun t => appends_first (todo t) = true /\
                   request_reg t = 0 /\ reply_reg t = 0)
    (threads (launch self probes)).
Proof.
  rewrite launch_threads.
  induction probes as [|[seq_num env] probes (IH1 & IH2 & IH3 & IH4)];
    [cbn; auto with zarith|].
  cbn [map fst snd List.length].
  rewrite !remaining_cons, owed_replies_cons. cbn [todo].
  destruct (probe_actions_counts (server_ip self) env seq_num)
    as (H1 & H2 & H3 & H4).
  repeat split; try lia. constructor; [|exact IH4]. cbn. auto.
Qed.


(** The invariant holds when the threads are launched around a client
    whose counters are zero and whose list is empty. *)
Lemma launch_inv (self : PingClient) (probes : list (Z * probe_env)) :
  request_count self = 0 -> reply_count self = 0 -> rtt_list self = [] ->
  counters_inv
    (remaining is_store_request (threads (launch self probes)))
    (remaining is_append (threads (launch self probes)))
    (launch self probes).
Proof.
  intros Hq Hp Hl.
  destruct (launch_remaining self probes) as (_ & _ & Ho & Hall).
  pose proof (remaining_nonneg is_store_request
                (threads (launch self probes))) as Hn.
  unfold counters_inv. rewrite Ho.
  change (shared (launch self probes)) with self.
  rewrite Hq, Hp, Hl. cbn [List.length Z.of_nat].
  repeat split; try lia.
  revert Hall. apply Forall_impl. intros t (Hwf & Hr & Hs).
  unfold thread_inv. rewrite Hr, Hs. repeat split; try lia. exact Hwf.
Qed.



(** On a client fresh from [__init__] the invariant holds at every moment
    of every interleaving. *)
Lemma interleaved_inv (ip : string) (port N per tmo : Z) (t0 : Q)
    (probes : list (Z * probe_env)) (schedule : list nat) :
  counters_inv
    (remaining is_store_request
       (threads (launched (init ip port N per tmo) t0 probes)))
    (remaining is_append
       (threads (launched (init ip port N per tmo) t0 probes)))
    (interleaved (init ip port N per tmo) t0 probes schedule).
Proof.
  unfold interleaved. apply interleave_inv.
  unfold launched. apply launch_inv; reflexivity.
Qed.

Lemma run_interleaved_eq (self : PingClient) (t0 t1 : Q)
    (probes : list (Z * probe_env)) (schedule : list nat) :
  run_interleaved self t0 t1 probes schedule =
    let c := interleaved self t0 probes schedule in
    let final := set_total_end (shared c) t1 in
    match summary_statistics final with
    | inr text => (final, (console c ++ [text])%list, None)
    | inl e => (final, console c, Some e)
    end.
Proof. reflexivity. Qed.

Lemma run_interleaved_final (self : PingClient) (t0 t1 : Q)
    (probes : list (Z * probe_env)) (schedule : list nat) :
  fst (fst (run_interleaved self t0 t1 probes schedule))
  = set_total_end (shared (interleaved self t0 probes schedule)) t1.
Proof.
  rewrite run_interleaved_eq. cbv zeta.
  destruct (summary_statistics _); reflexivity.
Qed.

(** The counters of a fresh client under any interleaving. *)
Lemma interleaved_counters (ip : string) (port N per tmo : Z) (t0 : Q)
    (probes : list (Z * probe_env)) (schedule : list nat) :
  let state :=
    shared (interleaved (init ip port N per tmo) t0 probes schedule) in
  0 <= reply_count state <= Z.of_nat (List.length (rtt_list state)) /\
  Z.of_nat (List.length (rtt_list state)) <= Z.of_nat (List.length probes) /\
  0 <= request_count state <= Z.of_nat (List.length probes).
Proof.
  cbv zeta.
  destruct (interleaved_inv ip port N per tmo t0 probes schedule)
    as (Hq0 & Hq & _ & Hp0 & Hp & Ha & _).
  set (c := interleaved _ _ _ _) in *.
  unfold launched in *.
  destruct (launch_remaining
              (set_thread_list (set_total_start (init ip port N per tmo) t0)
                 (thread_list (init ip port N per tmo)
                    ++ spawn (init ip port N per tmo)))
              probes) as (B1 & B2 & _).
  pose proof (remaining_nonneg is_store_request (threads c)).
  pose proof (remaining_nonneg is_append (threads c)).
  pose proof (owed_replies_nonneg (threads c)).
  lia.
Qed.

End Interleaving.

(** *** The serial schedule *)

Section Serial.

Lemma perform_todo (a : action) (rest : list action) (t : thread_state)
    (self : PingClient) (out : list string) :
  todo (snd (perform a rest t self out)) = rest.
Proof. destruct a; reflexivity. Qed.

Lemma step_thread_middle (pre : list thread_state) (t : thread_state)
    (post : list thread_state) (a : action) (rest : list action)
    (self : PingClient) (out : list string) :
  todo t = a :: rest ->
  step_thread (List.length pre) (pre ++ t :: post) self out
  = (fst (fst (perform a rest t self out)),
     snd (fst (perform a rest t self out)),
     pre ++ snd (perform a rest t self out) :: post).
Proof.
  intros Ht. induction pre as [|u pre IH]; cbn [List.length app step_thread].
  - rewrite Ht. destruct (perform a rest t self out) as [[s o] t'].
    reflexivity.
  - rewrite IH. reflexivity.
Qed.

(** A thread scheduled as often as it has accesses runs to its end. *)
Lemma interleave_repeat (pre post : list thread_state) (l : list action) :
  forall (t : thread_state) (self : PingClient) (out : list string),
    todo t = l ->
    interleave (repeat (List.length pre) (List.length l))
      (mkConfig self out (pre ++ t :: post))
    = mkConfig (fst (fst (perform_all l t self out)))
        (snd (fst (perform_all l t self out)))
        (pre ++ snd (perform_all l t self out) :: post).
Proof.
  unfold interleave.
  induction l as [|a rest IH]; intros t self out Ht; [reflexivity|].
  cbn [List.length repeat fold_left perform_all].
  unfold step_config at 2. cbn [threads shared console].
  rewrite (step_thread_middle pre t post a rest self out Ht).
  pose proof (perform_todo a rest t self out) as Ht'.
  destruct (perform a rest t self out) as [[s o] t']. cbn [fst snd] in *.
  apply IH, Ht'.
Qed.

(** Run on its own, the thread of a probe leaves the client and the
    console as the call of [send_ping] does. *)
Lemma perform_all_send_ping (self : PingClient) (out : list string)
    (env : probe_env) (seq_num : Z) (r1 r2 : Z) :
  fst (perform_all (probe_actions (server_ip self) env seq_num)
         (mkThread (probe_actions (server_ip self) env seq_num) r1 r2)
         self out)
  = (fst (fst (send_ping self env seq_num)),
     (out ++ snd (fst (send_ping self env seq_num)))%list).
Proof.
  unfold send_ping, send_ping_try, probe_actions, send_ping_try_actions,
    bind, ret, raise.
  destruct (setup_result env); [cbn; now rewrite app_nil_r|].
  destruct (build_message (pid env) (build_clock env) seq_num) as [[]|msg];
    destruct (seq_num =? 1);
    cbn [app perform_all perform fst snd]; rewrite ?app_nil_r;
    try reflexivity;
    (destruct (send_result env) as [[]|];
     cbn [app perform_all perform fst snd]; rewrite ?app_nil_r;
     try reflexivity;
     destruct (recv_result env) as [[]|data];
     cbn [app perform_all perform fst snd]; rewrite ?app_nil_r;
     try reflexivity;
     destruct (negb (calculate_checksum data =? 65535));
     cbn [app perform_all perform fst snd todo request_reg reply_reg];
     rewrite <- ?app_assoc; reflexivity).
Qed.

Lemma send_ping_server_ip (self : PingClient) (env : probe_env)
    (seq_num : Z) :
  server_ip (fst (fst (send_ping self env seq_num))) = server_ip self.
Proof. exact (proj1 (step_frame self (seq_num, env))). Qed.

(** Under the serial schedule the threads do what [run_probes] does. *)
Lemma interleave_serial (ip : string) (probes : list (Z * probe_env)) :
  forall (pre : list thread_state) (self : PingClient) (out : list string),
    server_ip self = ip ->
    let ts :=
      map (fun probe =>
             mkThread (probe_actions ip (snd probe) (fst probe)) 0 0)
          probes in
    let c :=
      interleave (serial_from (List.length pre) ts)
        (mkConfig self out (pre ++ ts)) in
    (shared c, console c)
    = fold_left
        (fun acc probe =>
           let '(self', lines, _) :=
             send_ping (fst acc) (snd probe) (fst probe) in
           (self', (snd acc ++ lines)%list))
        probes (self, out).
Proof.
  induction probes as [|[seq_num env] probes IH]; intros pre self out Hip;
    cbv zeta; [reflexivity|].
  cbn [map serial_from fst snd todo fold_left].
  unfold interleave. rewrite fold_left_app.
  fold (interleave
          (repeat (List.length pre)
             (List.length (probe_actions ip env seq_num)))
          (mkConfig self out
             (pre ++ mkThread (probe_actions ip env seq_num) 0 0
                  :: map (fun probe =>
                            mkThread
                              (probe_actions ip (snd probe) (fst probe)) 0 0)
                       probes))).
  rewrite (interleave_repeat pre _ (probe_actions ip env seq_num)
             (mkThread (probe_actions ip env seq_num) 0 0) self out eq_refl).
  pose proof (perform_all_send_ping self out env seq_num 0 0) as Hone.
  rewrite Hip in Hone.
  destruct (perform_all (probe_actions ip env seq_num) _ self out)
    as [[s o] t'].
  cbn [fst snd] in *. injection Hone as -> ->.
  pose proof (send_ping_server_ip self env seq_num) as Hip'.
  destruct (send_ping self env seq_num) as [[self' lines] e].
  cbn [fst snd] in *.
  specialize (IH (pre ++ [t']) self' (out ++ lines)%list).
  cbv zeta in IH. rewrite length_app, Nat.add_1_r, <- app_assoc in IH.
  apply IH. congruence.
Qed.

(** [run] is [run_interleaved] under the serial schedule. *)
Lemma run_serial (self : PingClient) (t0 t1 : Q)
    (probes : list (Z * probe_env)) :
  run_interleaved self t0 t1 probes (serial self probes)
  = run self t0 t1 probes.
Proof.
  unfold run_interleaved, run, run_probes, serial.
  set (started := set_thread_list _ _).
  pose proof (interleave_serial (server_ip self) probes [] started []
                eq_refl) as H.
  cbv zeta in H. cbn [List.length app] in H.
  change (launch started probes)
    with (mkConfig started []
            (map (fun probe =>
                    mkThread (probe_actions (server_ip self) (snd probe)
                                (fst probe)) 0 0) probes)).
  change (threads (launch self probes))
    with (map (fun probe =>
                 mkThread (probe_actions (server_ip self) (snd probe)
                             (fst probe)) 0 0) probes).
  destruct (fold_left _ probes (started, [])) as [s lines].
  injection H as -> ->. reflexivity.
Qed.

End Serial.

(** * The codec claims *)

Section CodecClaims.

Example sample_request_built :
  build_message 1234 (inject_Z 1700000000000) 1 = inr sample_request.
Proof. vm_compute. reflexivity. Qed.

Example sample_request_valid : calculate_checksum sample_request = 65535.
Proof. vm_compute. reflexivity. Qed.

(** C1.  The round trip fails for the request of probe 1 built by process
    31782 at 1700000017000 ms: the checksum of the 14-byte draft with a
    zeroed checksum field is 65536, its flip is -1, and writing -1 as two
    bytes raises [OverflowError], so no message is built at all. *)
Theorem build_message_overflow :
  calculate_checksum
    [x08; x00; x00; x00; x7c; x26; x00; x01; x01; x8b; xcf; xe5; xaa; x68]
  = 65536 /\
  build_message 31782 (inject_Z 1700000017000) 1 = inl OverflowError.
Proof. split; vm_compute; reflexivity. Qed.

(** C2.  On the four bytes ff 01 00 ff the client's sum is 65536 while
    the reference one's-complement sum, with the carry folded back, is
    1. *)
Theorem calculate_checksum_not_reference :
  calculate_checksum [xff; x01; x00; xff] = 65536 /\
  ones_complement_sum [xff; x01; x00; xff] = 1.
Proof. split; vm_compute; reflexivity. Qed.

(** C6.  On the four bytes ff 01 00 ff the sum exceeds 0xffff, its flip
    is negative and cannot be written as a two-byte field. *)
Theorem calculate_checksum_exceeds_u16 :
  65535 < calculate_checksum [xff; x01; x00; xff] /\
  bit_flip (calculate_checksum [xff; x01; x00; xff]) = -1 /\
  Py.to_bytes (bit_flip (calculate_checksum [xff; x01; x00; xff])) 2
  = inl OverflowError.
Proof. repeat split; vm_compute; reflexivity. Qed.

End CodecClaims.

(** * The scheduler claim *)

Section SchedulerClaims.

Lemma run_thread_list (self : PingClient) (t0 t1 : Q)
    (probes : list (Z * probe_env)) :
  thread_list (fst (fst (run self t0 t1 probes)))
  = (thread_list self ++ spawn self)%list.
Proof.
  rewrite run_eq. cbv zeta.
  destruct (summary_statistics _); cbn [fst snd];
    change (thread_list (set_total_end ?s ?v)) with (thread_list s);
    destruct (probes_frame probes
                (set_thread_list (set_total_start self t0)
                   (thread_list self ++ spawn self)))
      as (_ & _ & -> & _); reflexivity.
Qed.

(** C4.  In a run of three probes with a period of 1000 ms the timers of
    probes 2 and 3 are both created with the period itself as their
    delay; the delay of probe 3 is not twice the period. *)
Theorem timers_share_one_interval (t0 t1 : Q) (probes : list (Z * probe_env)) :
  map (fun t => (thread_seq t, dispatch_delay t))
      (thread_list (fst (fst (run sample_client t0 t1 probes))))
  = [(1, 0%Q); (2, period sample_client); (3, period sample_client)] /\
  ~ (period sample_client == (3 - 1) * period sample_client)%Q.
Proof.
  rewrite run_thread_list. split; [reflexivity|].
  vm_compute. discriminate.
Qed.

End SchedulerClaims.

(** * The containment claim *)

Section ContainmentClaims.

(** C3, as stated, fails: a receive failure that is not a timeout escapes
    [send_ping] and the probe is not counted. *)
Lemma recv_failure_not_contained :
  transport_failure env_recv_failed 2 OSError /\
  ~ contained sample_client env_recv_failed 2.
Proof.
  split.
  - right. split; [reflexivity|]. split.
    + eexists. vm_compute. reflexivity.
    + right. split; reflexivity.
  - intros [H _]. vm_compute in H. discriminate.
Qed.

(** C3, amended.  A transport failure other than a timeout is not
    absorbed: the exception escapes [send_ping] and the client's state,
    counters and round-trip times included, is left as it was. *)
Theorem transport_failure_propagates (self : PingClient) (env : probe_env)
    (seq_num : Z) (e : exn) :
  e <> SocketTimeout ->
  transport_failure env seq_num e ->
  snd (send_ping self env seq_num) = Some e /\
  fst (fst (send_ping self env seq_num)) = self.
Proof.
  intros Hne [Hs|(Hs & (msg & Hb) & [Hsend|[Hsend Hrecv]])];
    unfold send_ping, send_ping_try, bind, ret, raise;
    rewrite Hs; [split; reflexivity| |];
    rewrite Hb, Hsend; [|rewrite Hrecv];
    destruct e; try tauto; split; reflexivity.
Qed.

Lemma transport_failure_propagates_witness :
  snd (send_ping sample_client env_recv_failed 2) = Some OSError /\
  fst (fst (send_ping sample_client env_recv_failed 2)) = sample_client.
Proof.
  apply (transport_failure_propagates sample_client env_recv_failed 2 OSError).
  - discriminate.
  - right. split; [reflexivity|]. split.
    + eexists. vm_compute. reflexivity.
    + right. split; reflexivity.
Defined.

End ContainmentClaims.

(** * The executor and reporter claims *)

Section RunClaims.

Local Open Scope string_scope.

Variables (ip : string) (port N per tmo : Z) (t0 t1 : Q).
Variable probes : list (Z * probe_env).

Let client : PingClient := init ip port N per tmo.
Let started : PingClient :=
  set_thread_list (set_total_start client t0)
    (thread_list client ++ spawn client).
Let final : PingClient := set_total_end (probes_state started probes) t1.

(** The state the summary is computed from, for a client fresh from
    [__init__]. *)
Lemma final_state :
  request_count final = request_count (probes_state started probes) /\
  rtt_list final = in_time_rtts probes /\
  (0 <= reply_count final
   <= Z.of_nat (List.length (in_time_rtts probes)))%Z.
Proof.
  split; [reflexivity|]. split.
  - change (rtt_list final) with (rtt_list (probes_state started probes)).
    rewrite probes_rtt_list. reflexivity.
  - change (reply_count final)
      with (reply_count (probes_state started probes)).
    pose proof (probes_reply_count probes started) as H.
    change (reply_count started) with 0%Z in H. lia.
Qed.

Lemma final_rtt_list_nonempty :
  reply_count final <> 0%Z -> rtt_list final <> [].
Proof.
  destruct final_state as (_ & -> & Hr). intros Hnz Hnil.
  rewrite Hnil in Hr. cbn [List.length Z.of_nat] in Hr. lia.
Qed.

Lemma valid_reply_terminal (p : Z * probe_env) :
  valid_reply p -> reaches_terminal_state (snd p) (fst p).
Proof.
  intros (data & E & Hv) self.
  rewrite (send_ping_reply self _ _ data E). cbv zeta.
  rewrite Hv. reflexivity.
Qed.



(** C9.  Every reply that arrives in time leaves its round-trip time in
    the list, whatever its checksum; once a valid reply has been counted
    the last line of the summary is the min/avg/max of all of them. *)
Theorem rtt_summary_over_all_replies :
  Exists valid_reply probes ->
  exists state lines display_str line,
    run client t0 t1 probes
    = (state, (lines ++ [(display_str ++ line)%string])%list, None) /\
    rtt_list state = in_time_rtts probes /\
    rtt_line (in_time_rtts probes) = inr line.
Proof.
  intros Hex.
  pose proof (probes_reply_count_some probes Hex started) as Hrep.
  change (reply_count started) with 0%Z in Hrep.
  assert (Hterm : Exists (fun p => reaches_terminal_state (snd p) (fst p))
                    probes).
  { apply Exists_exists in Hex. destruct Hex as (p & Hin & Hp).
    apply Exists_exists. exists p. split; [assumption|].
    apply valid_reply_terminal, Hp. }
  pose proof (probes_request_count_some probes Hterm started) as Hreq.
  change (request_count started) with 0%Z in Hreq.
  destruct final_state as (_ & Hrtt & _).
  assert (Hnz : reply_count final <> 0%Z).
  { change (reply_count final)
      with (reply_count (probes_state started probes)). lia. }
  destruct (rtt_line_ok (rtt_list final) (final_rtt_list_nonempty Hnz))
    as [line Hline].
  rewrite run_eq. cbv zeta. fold client started final.
  rewrite summary_statistics_eq
    by (change (request_count final)
          with (request_count (probes_state started probes)); lia).
  cbv zeta. destruct (Z.eqb_spec (reply_count final) 0); [tauto|].
  rewrite Hline. unfold bind, ret.
  do 4 eexists. split; [reflexivity|]. split; [exact Hrtt|].
  rewrite <- Hrtt. exact Hline.
Qed.

(** C10.  The loss percentage divides by the request counter without a
    guard: with a counter of zero the summary raises
    [ZeroDivisionError].  As soon as one probe of the run has returned,
    by a reply or by a timeout, the counter is at least 1 and the summary
    is printed. *)
Theorem loss_division_needs_a_counted_probe :
  Exists (fun p => reaches_terminal_state (snd p) (fst p)) probes ->
  (exists state lines text,
     run client t0 t1 probes = (state, (lines ++ [text])%list, None) /\
     (1 <= request_count state)%Z) /\
  (forall self,
     request_count self = 0%Z ->
     summary_statistics self = inl ZeroDivisionError).
Proof.
  intros Hterm. split; [|apply summary_statistics_zero].
  pose proof (probes_request_count_some probes Hterm started) as Hreq.
  change (request_count started) with 0%Z in Hreq.
  destruct (summary_statistics_transmitted final) as [rest Hrest].
  - change (request_count final)
      with (request_count (probes_state started probes)). lia.
  - apply final_rtt_list_nonempty.
  - rewrite run_eq. cbv zeta. fold client started final.
    rewrite Hrest. do 3 eexists. split; [reflexivity|].
    change (request_count final)
      with (request_count (probes_state started probes)). lia.
Qed.

End RunClaims.

Section ProbeClaims.

Local Open Scope string_scope.

(** C7.  With no reply counted the summary never aggregates the
    round-trip times: it ends with the fixed line
    [rtt min/avg/max = 0/0/0 ms], and the one way it can fail is the loss
    division on a request counter of zero. *)
Theorem summary_without_replies (self : PingClient) :
  reply_count self = 0%Z ->
  summary_statistics self =
    if (request_count self =? 0)%Z
    then inl ZeroDivisionError
    else inr ((summary_header self
                 ++ counts_line self
                      (inject_Z (reply_count self)
                       / inject_Z (request_count self))%Q)
                ++ "rtt min/avg/max = 0/0/0 ms").
Proof.
  intros Hrep. destruct (Z.eqb_spec (request_count self) 0) as [Hz|Hnz].
  - apply summary_statistics_zero, Hz.
  - rewrite summary_statistics_eq by assumption. cbv zeta.
    rewrite Hrep. reflexivity.
Qed.

(** C8.  A datagram received in time is always counted as sent.  When its
    checksum is not 0xffff, the line printed is the warning with the
    sequence number read from bytes 6..8 of the datagram, and the reply
    counter stays; the reply counter grows exactly when the checksum is
    0xffff. *)
Theorem invalid_reply_warning (self : PingClient) (env : probe_env)
    (seq_num : Z) (data : list byte) :
  reply_of env seq_num = Some data ->
  snd (send_ping self env seq_num) = None /\
  request_count (fst (fst (send_ping self env seq_num)))
  = (request_count self + 1)%Z /\
  (calculate_checksum data <> 65535%Z ->
   snd (fst (send_ping self env seq_num))
   = (banner self seq_num
        ++ [("WARNING: checksum verification failure for echo reply seqno="
               ++ Py.str (Py.from_bytes (Py.slice data 6 8)))%string])%list /\
   reply_count (fst (fst (send_ping self env seq_num))) = reply_count self) /\
  (reply_count (fst (fst (send_ping self env seq_num)))
   = (reply_count self + 1)%Z
   <-> calculate_checksum data = 65535%Z).
Proof.
  intros E. rewrite (send_ping_reply self env seq_num data E). cbv zeta.
  destruct (Z.eqb_spec (calculate_checksum data) 65535) as [Hv|Hv];
    cbn [fst snd reply_count request_count set_reply_count
           set_request_count set_rtt_list];
    repeat split; try tauto; try reflexivity; intros; lia.
Qed.

End ProbeClaims.

(** * The claims on the sample run *)

Section SampleRun.

Local Open Scope string_scope.

Example sample_run_output :
  snd (fst (run sample_client 0 (inject_Z 3000) sample_probes))
  = ["PING 10.0.0.1";
     "PONG 10.0.0.1: seq=1 time=22 ms";
     "WARNING: checksum verification failure for echo reply seqno=3";
     ("--- 10.0.0.1 ping statistics ---" ++ nl
        ++ "3 transmitted, 1 received, 67% loss, time 3000 ms" ++ nl
        ++ "rtt min/avg/max = 22/36/50 ms")%string]%list.
Proof. vm_compute. reflexivity. Qed.

Lemma sample_probes_terminal :
  Forall (fun p => reaches_terminal_state (snd p) (fst p)) sample_probes.
Proof. repeat constructor; intros self; vm_compute; reflexivity. Qed.


Lemma rtt_summary_over_all_replies_witness :
  exists state lines display_str line,
    run sample_client 0 (inject_Z 3000) sample_probes
    = (state, (lines ++ [(display_str ++ line)%string])%list, None) /\
    rtt_list state = in_time_rtts sample_probes /\
    rtt_line (in_time_rtts sample_probes) = inr line.
Proof.
  apply (rtt_summary_over_all_replies
           "10.0.0.1" 8080 3 1000 500 0 (inject_Z 3000) sample_probes).
  apply Exists_cons_hd. exists sample_request.
  split; vm_compute; reflexivity.
Defined.

Lemma loss_division_needs_a_counted_probe_witness :
  (exists state lines text,
     run sample_client 0 (inject_Z 3000) sample_probes
     = (state, (lines ++ [text])%list, None) /\
     (1 <= request_count state)%Z) /\
  (forall self,
     request_count self = 0%Z ->
     summary_statistics self = inl ZeroDivisionError).
Proof.
  apply (loss_division_needs_a_counted_probe
           "10.0.0.1" 8080 3 1000 500 0 (inject_Z 3000) sample_probes).
  apply Exists_cons_hd. intros self. vm_compute. reflexivity.
Defined.

Lemma summary_without_replies_witness :
  summary_statistics (set_request_count sample_client 3)
  = inr ("--- 10.0.0.1 ping statistics ---" ++ nl
           ++ "3 transmitted, 0 received, 100% loss, time 0 ms" ++ nl
           ++ "rtt min/avg/max = 0/0/0 ms").
Proof.
  exact (summary_without_replies (set_request_count sample_client 3) eq_refl).
Defined.

Lemma invalid_reply_warning_witness :
  snd (fst (send_ping sample_client env_corrupt 3))
  = ["WARNING: checksum verification failure for echo reply seqno=3"]%list /\
  request_count (fst (fst (send_ping sample_client env_corrupt 3))) = 1%Z /\
  reply_count (fst (fst (send_ping sample_client env_corrupt 3))) = 0%Z.
Proof.
  destruct (invalid_reply_warning sample_client env_corrupt 3 corrupt_reply
              eq_refl) as (_ & Hreq & Hbad & _).
  destruct Hbad as [Hline Hrep]; [vm_compute; discriminate|].
  split; [exact Hline|]. split; [exact Hreq | exact Hrep].
Defined.

End SampleRun.

(** * Further properties of the codec *)

Section CodecFacts.

Lemma from_bytes_snoc (bs : list byte) (b : byte) :
  Py.from_bytes (bs ++ [b]) = Py.from_bytes bs * 256 + Py.byte_val b.
Proof. unfold Py.from_bytes. rewrite fold_left_app. reflexivity. Qed.

Lemma be_bytes_length (len : nat) :
  forall n, List.length (Py.be_bytes len n) = len.
Proof.
  induction len as [|k IH]; intros n; cbn [Py.be_bytes]; [reflexivity|].
  rewrite length_app, IH. cbn. lia.
Qed.

(** [int.from_bytes] undoes [int.to_bytes]. *)
Lemma from_bytes_be_bytes (len : nat) :
  forall n, 0 <= n < 256 ^ Z.of_nat len ->
            Py.from_bytes (Py.be_bytes len n) = n.
Proof.
  induction len as [|k IH]; intros n Hn.
  - change (256 ^ Z.of_nat 0) with 1 in Hn. cbn. lia.
  - cbn [Py.be_bytes]. rewrite from_bytes_snoc.
    rewrite Nat2Z.inj_succ, Z.pow_succ_r in Hn by lia.
    pose proof (Z.div_mod n 256 ltac:(lia)).
    pose proof (Z.mod_pos_bound n 256 ltac:(lia)).
    rewrite IH by (split; [apply Z.div_pos; lia
                          | apply Z.div_lt_upper_bound; lia]).
    rewrite byte_val_of_Z by lia. lia.
Qed.

Lemma byte_val_inj (b b' : byte) : Py.byte_val b = Py.byte_val b' -> b = b'.
Proof.
  unfold Py.byte_val. intros H.
  assert (E : Byte.to_N b = Byte.to_N b') by lia.
  pose proof (Byte.of_to_N b) as H1. rewrite E, Byte.of_to_N in H1.
  congruence.
Qed.

Lemma length_two (A : Type) (l : list A) :
  List.length l = 2%nat -> exists a b, l = [a; b].
Proof.
  destruct l as [|a [|b [|c l]]]; try discriminate. eauto.
Qed.

(** The parts of a message that [build_message] returns. *)
Lemma build_message_parts (pid : Z) (clock : Q) (seq_num : Z) (m : list byte) :
  build_message pid clock seq_num = inr m ->
  exists cks,
    List.length cks = 2%nat /\
    0 <= seq_num < 65536 /\
    0 <= Py.int clock < 2 ^ 48 /\
    m = ([x08; x00] ++ cks ++ Py.be_bytes 2 (pid mod 65536)
           ++ Py.be_bytes 2 seq_num ++ Py.be_bytes 6 (Py.int clock))%list.
Proof.
  unfold build_message, bind, ret.
  destruct (Py.to_bytes (pid mod 65536) 2) as [e|ident] eqn:E1; [discriminate|].
  change (Py.to_bytes 0 2) with (@inr exn _ [x00; x00]). cbv beta iota.
  destruct (Py.to_bytes seq_num 2) as [e|seqb] eqn:E2; [discriminate|].
  destruct (Py.to_bytes (Py.int clock) 6) as [e|stamp] eqn:E3; [discriminate|].
  destruct (Py.to_bytes (bit_flip _) 2) as [e|cks] eqn:E4; [discriminate|].
  intros [= <-].
  apply to_bytes_ok in E1, E2, E3, E4.
  destruct E1 as [_ ->], E2 as [H2 ->], E3 as [H3 ->], E4 as [_ ->].
  eexists. split; [apply be_bytes_length|].
  change (256 ^ Z.of_nat 2) with 65536 in H2.
  change (256 ^ Z.of_nat 6) with (2 ^ 48) in H3.
  repeat split; try lia.
Qed.

Lemma to_bytes_exn (n : Z) (len : nat) (e : exn) :
  Py.to_bytes n len = inl e -> e = OverflowError.
Proof.
  unfold Py.to_bytes, raise, ret.
  destruct ((n <? 0) || (256 ^ Z.of_nat len <=? n)); congruence.
Qed.

(** The only exception [build_message] raises is [OverflowError]. *)
Lemma build_message_exn (pid : Z) (clock : Q) (seq_num : Z) (e : exn) :
  build_message pid clock seq_num = inl e -> e = OverflowError.
Proof.
  unfold build_message, bind, ret.
  destruct (Py.to_bytes (pid mod 65536) 2) as [e1|ident] eqn:E1;
    [intros [= <-]; eapply to_bytes_exn, E1|].
  change (Py.to_bytes 0 2) with (@inr exn _ [x00; x00]). cbv beta iota.
  destruct (Py.to_bytes seq_num 2) as [e2|seqb] eqn:E2;
    [intros [= <-]; eapply to_bytes_exn, E2|].
  destruct (Py.to_bytes (Py.int clock) 6) as [e3|stamp] eqn:E3;
    [intros [= <-]; eapply to_bytes_exn, E3|].
  destruct (Py.to_bytes (bit_flip _) 2) as [e4|cks] eqn:E4;
    [intros [= <-]; eapply to_bytes_exn, E4|discriminate].
Qed.

Lemma checksum_loop_odd_tail (m : list byte) :
  forall s b, Nat.even (List.length m) = true ->
              checksum_loop s (m ++ [b]) = checksum_loop s m.
Proof.
  induction m using list_pair_ind; intros s tail Hev.
  - reflexivity.
  - discriminate.
  - cbn [app]. rewrite !checksum_loop_step. apply IHm. exact Hev.
Qed.

(** Replacing one byte of an even-length string moves the word sum by the
    difference of the bytes, times 256 for the first byte of a word. *)
Lemma word_sum_replace (pre : list byte) :
  forall post b b',
    Nat.even (List.length (pre ++ b :: post)) = true ->
    word_sum (pre ++ b :: post) - word_sum (pre ++ b' :: post)
    = (Py.byte_val b - Py.byte_val b')
      * (if Nat.even (List.length pre) then 256 else 1).
Proof.
  induction pre using list_pair_ind; intros post c c' Hev.
  - destruct post as [|d post]; [discriminate|].
    cbn [app word_sum List.length Nat.even]. unfold be16. lia.
  - cbn [app word_sum List.length Nat.even]. unfold be16. lia.
  - cbn [app word_sum]. specialize (IHpre post c c' Hev).
    cbn [List.length Nat.even]. lia.
Qed.


End CodecFacts.

Section CodecProperties.

Lemma to_bytes_inr (n : Z) (len : nat) :
  0 <= n < 256 ^ Z.of_nat len -> Py.to_bytes n len = inr (Py.be_bytes len n).
Proof.
  intros Hn. unfold Py.to_bytes, raise, ret.
  destruct (Z.ltb_spec n 0); [lia|]. cbn [orb].
  destruct (Z.leb_spec (256 ^ Z.of_nat len) n); [lia|reflexivity].
Qed.

(** X1.  Whatever message [build_message] returns passes the client's own
    reply check: its checksum is 0xffff. *)
Theorem build_message_round_trip (pid : Z) (clock : Q) (seq_num : Z)
    (m : list byte) :
  build_message pid clock seq_num = inr m -> calculate_checksum m = 65535.
Proof. apply build_message_valid. Qed.

Lemma build_message_round_trip_witness :
  calculate_checksum sample_request = 65535.
Proof.
  apply (build_message_round_trip 1234 (inject_Z 1700000000000) 1).
  vm_compute. reflexivity.
Defined.

(** The fields of a message returned by [build_message], read back. *)
Lemma build_message_fields (pid : Z) (clock : Q) (seq_num : Z)
    (m : list byte) :
  build_message pid clock seq_num = inr m ->
  List.length m = 14%nat /\
  Py.slice m 0 2 = [x08; x00] /\
  Py.from_bytes (Py.slice m 4 6) = pid mod 65536 /\
  Py.from_bytes (Py.slice m 6 8) = seq_num /\
  Py.from_bytes (Py.slice m 8 14) = Py.int clock.
Proof.
  intros H. apply build_message_parts in H.
  destruct H as (cks & Hlen & Hseq & Hclk & ->).
  destruct (length_two _ _ Hlen) as (c0 & c1 & ->).
  pose proof (Z.mod_pos_bound pid 65536 ltac:(lia)) as Hpid.
  pose proof (be_bytes_length 2 (pid mod 65536)) as L1.
  pose proof (be_bytes_length 2 seq_num) as L2.
  pose proof (be_bytes_length 6 (Py.int clock)) as L3.
  pose proof (from_bytes_be_bytes 2 (pid mod 65536) Hpid) as F1.
  pose proof (from_bytes_be_bytes 2 seq_num Hseq) as F2.
  pose proof (from_bytes_be_bytes 6 (Py.int clock) Hclk) as F3.
  destruct (length_two _ _ L1) as (i0 & i1 & E1). rewrite E1 in *.
  destruct (length_two _ _ L2) as (s0 & s1 & E2). rewrite E2 in *.
  set (stamp := Py.be_bytes 6 (Py.int clock)) in *.
  assert (Hst : firstn 6 stamp = stamp) by (rewrite <- L3; apply firstn_all).
  unfold Py.slice. cbn [app List.length skipn Nat.sub].
  rewrite Hst, L3. cbn [firstn]. repeat split; assumption.
Qed.

(** X2.  A message returned by [build_message] has 14 bytes: type 8 and
    code 0, then the checksum field, then, read back big-endian, the
    process id modulo 65536 at offset 4, the sequence number at offset 6
    and the integer clock reading at offset 8. *)
Theorem build_message_layout (pid : Z) (clock : Q) (seq_num : Z)
    (m : list byte) :
  build_message pid clock seq_num = inr m ->
  List.length m = 14%nat /\
  Py.slice m 0 2 = [x08; x00] /\
  Py.from_bytes (Py.slice m 4 6) = pid mod 65536 /\
  Py.from_bytes (Py.slice m 6 8) = seq_num /\
  Py.from_bytes (Py.slice m 8 14) = Py.int clock.
Proof. apply build_message_fields. Qed.

Lemma build_message_layout_witness :
  List.length sample_request = 14%nat /\
  Py.slice sample_request 0 2 = [x08; x00] /\
  Py.from_bytes (Py.slice sample_request 4 6) = 1234 mod 65536 /\
  Py.from_bytes (Py.slice sample_request 6 8) = 1 /\
  Py.from_bytes (Py.slice sample_request 8 14) = Py.int (inject_Z 1700000000000).
Proof.
  apply (build_message_layout 1234 (inject_Z 1700000000000) 1).
  vm_compute. reflexivity.
Defined.

(** X3.  [build_message] raises [OverflowError] for a sequence number
    outside 0..65535 and for a clock reading outside 0..2^48-1. *)
Theorem build_message_out_of_range (pid : Z) (clock : Q) (seq_num : Z) :
  seq_num < 0 \/ 65535 < seq_num \/ Py.int clock < 0 \/ 2 ^ 48 <= Py.int clock ->
  build_message pid clock seq_num = inl OverflowError.
Proof.
  intros H. unfold build_message, bind, ret.
  pose proof (Z.mod_pos_bound pid 65536 ltac:(lia)) as Hpid.
  rewrite (to_bytes_inr (pid mod 65536) 2) by exact Hpid.
  change (Py.to_bytes 0 2) with (@inr exn _ [x00; x00]). cbv beta iota.
  assert (seq_num < 0 \/ 65535 < seq_num \/ 0 <= seq_num < 65536)
    as [Hs|[Hs|Hs]] by lia.
  - rewrite (to_bytes_raises seq_num 2) by (left; lia). reflexivity.
  - rewrite (to_bytes_raises seq_num 2)
      by (right; change (256 ^ Z.of_nat 2) with 65536; lia).
    reflexivity.
  - rewrite (to_bytes_inr seq_num 2) by exact Hs.
    rewrite (to_bytes_raises (Py.int clock) 6)
      by (change (256 ^ Z.of_nat 6) with (2 ^ 48); lia).
    reflexivity.
Qed.

Lemma build_message_out_of_range_witness :
  build_message 1234 (inject_Z 1700000000000) 65536 = inl OverflowError.
Proof.
  apply (build_message_out_of_range 1234 (inject_Z 1700000000000) 65536).
  right. left. lia.
Defined.

(** X4.  For a sequence number in 0..65535 and a clock reading in
    0..2^48-1, [build_message] raises exactly when the checksum of the
    draft, the message with a zeroed checksum field, exceeds 0xffff. *)
Theorem build_message_fails_iff (pid : Z) (clock : Q) (seq_num : Z) :
  0 <= seq_num < 65536 ->
  0 <= Py.int clock < 2 ^ 48 ->
  (build_message pid clock seq_num = inl OverflowError <->
   65535 < calculate_checksum
             ([x08; x00; x00; x00] ++ Py.be_bytes 2 (pid mod 65536)
                ++ Py.be_bytes 2 seq_num ++ Py.be_bytes 6 (Py.int clock))).
Proof.
  intros Hs Hc. unfold build_message, bind, ret.
  pose proof (Z.mod_pos_bound pid 65536 ltac:(lia)) as Hpid.
  rewrite (to_bytes_inr (pid mod 65536) 2) by exact Hpid.
  change (Py.to_bytes 0 2) with (@inr exn _ [x00; x00]). cbv beta iota.
  rewrite (to_bytes_inr seq_num 2) by exact Hs.
  rewrite (to_bytes_inr (Py.int clock) 6) by exact Hc.
  cbn [app].
  set (draft := x08 :: x00 :: x00 :: x00 :: _).
  pose proof (calculate_checksum_range draft) as Hr.
  assert (calculate_checksum draft <= 65535 \/ 65535 < calculate_checksum draft)
    as [Hfit|Hbig] by lia.
  - rewrite (to_bytes_inr (bit_flip (calculate_checksum draft)) 2)
      by (unfold bit_flip; change (256 ^ Z.of_nat 2) with 65536; lia).
    split; [discriminate | lia].
  - rewrite (to_bytes_raises (bit_flip (calculate_checksum draft)) 2)
      by (left; unfold bit_flip; lia).
    split; [intros _; exact Hbig | reflexivity].
Qed.

Lemma build_message_fails_iff_witness :
  build_message 31782 (inject_Z 1700000017000) 1 = inl OverflowError <->
  65535 < calculate_checksum
            ([x08; x00; x00; x00] ++ Py.be_bytes 2 (31782 mod 65536)
               ++ Py.be_bytes 2 1
               ++ Py.be_bytes 6 (Py.int (inject_Z 1700000017000))).
Proof.
  apply (build_message_fails_iff 31782 (inject_Z 1700000017000) 1).
  - lia.
  - vm_compute. split; [discriminate | reflexivity].
Defined.

(** X5.  For every byte string, of even or odd length,
    [calculate_checksum] returns a value between 0 and 0x100fe. *)
Theorem calculate_checksum_bounds (message : list byte) :
  0 <= calculate_checksum message <= 0x100fe.
Proof. apply calculate_checksum_range. Qed.


(** X7.  A trailing odd byte is not read: appending one byte to an
    even-length string leaves the checksum as it was. *)
Theorem calculate_checksum_ignores_odd_byte (message : list byte) (b : byte) :
  Nat.even (List.length message) = true ->
  calculate_checksum (message ++ [b]) = calculate_checksum message.
Proof. intros H. apply checksum_loop_odd_tail, H. Qed.

Lemma calculate_checksum_ignores_odd_byte_witness :
  calculate_checksum (sample_request ++ [xff]) = calculate_checksum sample_request.
Proof.
  apply (calculate_checksum_ignores_odd_byte sample_request xff). reflexivity.
Defined.

(** X8.  Changing any single byte of an even-length datagram that passes
    the reply check makes it fail the check. *)
Theorem single_byte_corruption_detected (pre post : list byte) (b b' : byte) :
  Nat.even (List.length (pre ++ b :: post)) = true ->
  b <> b' ->
  calculate_checksum (pre ++ b :: post) = 65535 ->
  calculate_checksum (pre ++ b' :: post) <> 65535.
Proof.
  intros Hev Hne Hok Hbad.
  pose proof (word_sum_replace pre post b b' Hev) as Hd.
  destruct (checksum_loop_congr (pre ++ b :: post) 0) as [k1 Hk1].
  destruct (checksum_loop_congr (pre ++ b' :: post) 0) as [k2 Hk2].
  unfold calculate_checksum in Hok, Hbad. rewrite Hok in Hk1. rewrite Hbad in Hk2.
  pose proof (byte_val_range b) as Hb. pose proof (byte_val_range b') as Hb'.
  assert (Hv : Py.byte_val b <> Py.byte_val b')
    by (intros E; apply Hne, byte_val_inj, E).
  destruct (Nat.even (List.length pre)); lia.
Qed.

Lemma single_byte_corruption_detected_witness :
  calculate_checksum
    ([x08; x00; xb9; xbb; x04; xd2; x00; x01; x01; x8b; xcf; xe5; x68]
       ++ x01 :: []) <> 65535.
Proof.
  apply (single_byte_corruption_detected
           [x08; x00; xb9; xbb; x04; xd2; x00; x01; x01; x8b; xcf; xe5; x68]
           [] x00 x01).
  - reflexivity.
  - discriminate.
  - vm_compute. reflexivity.
Defined.

End CodecProperties.

(** * Further properties of the executor *)

Section ProbeProperties.

Local Open Scope string_scope.

(** X9.  An unmodified echo of the request is accepted: the probe is
    counted as sent and as replied, its round-trip time is recorded and
    the line printed is the PONG line with the probe's own sequence
    number. *)
Theorem echoed_request_is_accepted (self : PingClient) (env : probe_env)
    (seq_num : Z) (msg : list byte) :
  setup_result env = None ->
  build_message (pid env) (build_clock env) seq_num = inr msg ->
  send_result env = None ->
  recv_result env = inr msg ->
  send_ping self env seq_num =
    (set_reply_count
       (set_request_count
          (set_rtt_list self (rtt_list self ++ [measured_rtt env]))
          (request_count self + 1))
       (reply_count self + 1),
     (banner self seq_num
        ++ [("PONG " ++ server_ip self ++ ": seq=" ++ Py.str seq_num
               ++ " time=" ++ Py.str (measured_rtt env) ++ " ms")%string])%list,
     None).
Proof.
  intros Hs Hb Hsend Hrecv.
  assert (E : reply_of env seq_num = Some msg)
    by (unfold reply_of; rewrite Hs, Hb, Hsend, Hrecv; reflexivity).
  rewrite (send_ping_reply self env seq_num msg E). cbv zeta.
  rewrite (build_message_valid _ _ _ _ Hb). cbn [Z.eqb Pos.eqb].
  destruct (build_message_fields _ _ _ _ Hb) as (_ & _ & _ & -> & _).
  reflexivity.
Qed.

Lemma echoed_request_is_accepted_witness :
  send_ping sample_client env_replied 1 =
    (set_reply_count
       (set_request_count
          (set_rtt_list sample_client
             (rtt_list sample_client ++ [measured_rtt env_replied]))
          (request_count sample_client + 1))
       (reply_count sample_client + 1),
     (banner sample_client 1
        ++ [("PONG " ++ server_ip sample_client ++ ": seq=" ++ Py.str 1
               ++ " time=" ++ Py.str (measured_rtt env_replied)
               ++ " ms")%string])%list,
     None).
Proof.
  apply (echoed_request_is_accepted sample_client env_replied 1 sample_request).
  - reflexivity.
  - vm_compute. reflexivity.
  - reflexivity.
  - reflexivity.
Defined.

(** X10.  A timeout of the send or of the receive is absorbed: the probe
    is counted as sent, nothing else in the state changes, no line is
    printed beyond the banner of probe 1 and no exception escapes. *)
Theorem timeout_counts_as_sent (self : PingClient) (env : probe_env)
    (seq_num : Z) (msg : list byte) :
  setup_result env = None ->
  build_message (pid env) (build_clock env) seq_num = inr msg ->
  send_result env = Some SocketTimeout \/
  (send_result env = None /\ recv_result env = inl SocketTimeout) ->
  send_ping self env seq_num =
    (set_request_count self (request_count self + 1), banner self seq_num, None).
Proof.
  intros Hs Hb [Hsend|[Hsend Hrecv]];
    unfold send_ping, send_ping_try, bind, ret, raise;
    rewrite Hs, Hb, Hsend; [|rewrite Hrecv]; reflexivity.
Qed.

Lemma timeout_counts_as_sent_witness :
  send_ping sample_client env_timed_out 2 =
    (set_request_count sample_client (request_count sample_client + 1),
     banner sample_client 2, None).
Proof.
  eapply (timeout_counts_as_sent sample_client env_timed_out 2).
  - reflexivity.
  - vm_compute. reflexivity.
  - right. split; reflexivity.
Defined.

(** X11.  When the request cannot be built the [OverflowError] escapes
    [send_ping]: the probe is neither sent nor counted, and only the
    banner of probe 1 has been printed. *)
Theorem build_failure_escapes (self : PingClient) (env : probe_env)
    (seq_num : Z) (e : exn) :
  setup_result env = None ->
  build_message (pid env) (build_clock env) seq_num = inl e ->
  send_ping self env seq_num = (self, banner self seq_num, Some OverflowError).
Proof.
  intros Hs Hb. pose proof (build_message_exn _ _ _ _ Hb) as ->.
  unfold send_ping, send_ping_try, bind. rewrite Hs, Hb. reflexivity.
Qed.

Lemma build_failure_escapes_witness :
  send_ping sample_client env_replied 65536
  = (sample_client, banner sample_client 65536, Some OverflowError).
Proof.
  apply (build_failure_escapes sample_client env_replied 65536 OverflowError).
  - reflexivity.
  - vm_compute. reflexivity.
Defined.

(** X12.  [send_ping] never touches the configuration, the run clocks or
    the thread list. *)
Theorem send_ping_keeps_configuration (self : PingClient) (env : probe_env)
    (seq_num : Z) :
  let after := fst (fst (send_ping self env seq_num)) in
  server_ip after = server_ip self /\
  server_port after = server_port self /\
  count after = count self /\
  period after = period self /\
  timeout after = timeout self /\
  total_start after = total_start self /\
  total_end after = total_end self /\
  thread_list after = thread_list self.
Proof.
  cbv zeta.
  destruct (step_cases self (seq_num, env))
    as [(data & _ & _ & H)|[(_ & _ & H)|(_ & _ & H)]];
    unfold step in H; cbn [fst snd] in H; rewrite H; cbv zeta;
    try destruct (calculate_checksum data =? 65535)%Z;
    repeat split; reflexivity.
Qed.

(** X13.  A datagram with a valid checksum is counted as the reply of the
    probe that received it whatever sequence number it carries: the
    number in the PONG line is the one read from the datagram, and it is
    not compared with the probe's own. *)
Theorem valid_reply_counted_for_any_sequence (self : PingClient)
    (env : probe_env) (seq_num : Z) (data : list byte) :
  reply_of env seq_num = Some data ->
  calculate_checksum data = 65535%Z ->
  reply_count (fst (fst (send_ping self env seq_num)))
  = (reply_count self + 1)%Z /\
  snd (fst (send_ping self env seq_num))
  = (banner self seq_num
       ++ [("PONG " ++ server_ip self ++ ": seq="
              ++ Py.str (Py.from_bytes (Py.slice data 6 8))
              ++ " time=" ++ Py.str (measured_rtt env) ++ " ms")%string])%list.
Proof.
  intros E Hv. rewrite (send_ping_reply self env seq_num data E). cbv zeta.
  rewrite Hv. split; reflexivity.
Qed.

Lemma valid_reply_counted_for_any_sequence_witness :
  reply_count (fst (fst (send_ping sample_client
                           (mkEnv None 1234 (inject_Z 1700000001000)
                              (inject_Z 1700000001000) None
                              (inr sample_request) (inject_Z 1700000001009))
                           2)))
  = 1%Z /\
  snd (fst (send_ping sample_client
              (mkEnv None 1234 (inject_Z 1700000001000)
                 (inject_Z 1700000001000) None
                 (inr sample_request) (inject_Z 1700000001009))
              2))
  = ["PONG 10.0.0.1: seq=1 time=9 ms"]%list.
Proof.
  apply (valid_reply_counted_for_any_sequence sample_client
           (mkEnv None 1234 (inject_Z 1700000001000)
              (inject_Z 1700000001000) None
              (inr sample_request) (inject_Z 1700000001009))
           2 sample_request).
  - vm_compute. reflexivity.
  - vm_compute. reflexivity.
Defined.

End ProbeProperties.

(** * Further properties of the scheduler and the reporter *)

Section RunProperties.

Local Open Scope string_scope.

Lemma run_final (self : PingClient) (t0 t1 : Q) (probes : list (Z * probe_env)) :
  fst (fst (run self t0 t1 probes))
  = set_total_end
      (probes_state
         (set_thread_list (set_total_start self t0)
            (thread_list self ++ spawn self))
         probes)
      t1.
Proof.
  rewrite run_eq. cbv zeta. destruct (summary_statistics _); reflexivity.
Qed.

Lemma run_raised (self : PingClient) (t0 t1 : Q) (probes : list (Z * probe_env)) :
  snd (run self t0 t1 probes)
  = match summary_statistics (fst (fst (run self t0 t1 probes))) with
    | inr _ => None
    | inl e => Some e
    end.
Proof.
  rewrite run_final, run_eq. cbv zeta.
  destruct (summary_statistics _); reflexivity.
Qed.

(** The round-trip times can outnumber the requests counted: two replies
    arrive together, both are appended, and one increment of the request
    counter is lost. *)
Example lost_update_leaves_list_ahead :
  let final :=
    fst (fst (run_interleaved sample_client 0 (inject_Z 3000)
                [(1, env_replied); (2, env_corrupt); (3, env_corrupt)]%Z
                [0; 0; 0; 0; 0; 0; 0; 1; 2; 1; 2; 1; 2; 1; 2]%nat)) in
  rtt_list final = [22; 50; 50]%Z /\ request_count final = 2%Z.
Proof. split; vm_compute; reflexivity. Qed.

(** X14.  Whenever the summary of a fresh client is taken, under any
    interleaving of the threads and whether or not they have finished,
    the replies counted are at most the round-trip times recorded, these
    at most the probes, and the requests counted at most the probes. *)
Theorem interleaved_counters_ordered (ip : string) (port N per tmo : Z)
    (t0 t1 : Q) (probes : list (Z * probe_env)) (schedule : list nat) :
  let final :=
    fst (fst (run_interleaved (init ip port N per tmo) t0 t1 probes
                schedule)) in
  (0 <= reply_count final)%Z /\
  (reply_count final <= Z.of_nat (List.length (rtt_list final)))%Z /\
  (Z.of_nat (List.length (rtt_list final))
   <= Z.of_nat (List.length probes))%Z /\
  (0 <= request_count final <= Z.of_nat (List.length probes))%Z.
Proof.
  cbv zeta. rewrite run_interleaved_final.
  cbn [reply_count rtt_list request_count set_total_end].
  pose proof (interleaved_counters ip port N per tmo t0 probes schedule)
    as H.
  cbv zeta in H. lia.
Qed.

Lemma map_of_nat_seq (k : nat) :
  forall a, map Z.of_nat (seq a k)
            = map (fun i => (Z.of_nat a + Z.of_nat i)%Z) (seq 0 k).
Proof.
  induction k as [|k IH]; intros a; [reflexivity|].
  cbn [seq map]. rewrite IH, <- seq_shift, map_map.
  f_equal; [lia|]. apply map_ext. intros i. lia.
Qed.

(** X15.  A run of a fresh client with [count >= 1] creates its threads
    for the sequence numbers 1, 2, ..., count, in this order, without gap
    or repeat. *)
Theorem run_sequence_numbers (ip : string) (port N per tmo : Z) (t0 t1 : Q)
    (probes : list (Z * probe_env)) :
  (1 <= N)%Z ->
  map thread_seq
      (thread_list (fst (fst (run (init ip port N per tmo) t0 t1 probes))))
  = map Z.of_nat (seq 1 (Z.to_nat N)).
Proof.
  intros HN. rewrite run_thread_list. cbn [thread_list init app].
  unfold spawn. cbn [map thread_seq count init].
  rewrite spawn_timers_seq.
  replace (Z.to_nat N) with (S (Z.to_nat (N - 1))) by lia.
  cbn [seq map]. f_equal. rewrite map_of_nat_seq. reflexivity.
Qed.

Lemma run_sequence_numbers_witness :
  map thread_seq
      (thread_list (fst (fst (run sample_client 0 (inject_Z 3000) sample_probes))))
  = map Z.of_nat (seq 1 (Z.to_nat 3)).
Proof.
  apply (run_sequence_numbers "10.0.0.1" 8080 3 1000 500 0 (inject_Z 3000)
           sample_probes).
  lia.
Defined.

(** X16.  [run] waits for its threads exactly when the client has no
    thread yet and [count >= 1]: with [count <= 0], or on a client that
    has run before, the threads are not joined before the summary. *)
Theorem joins_iff (self : PingClient) :
  joins self = true <-> thread_list self = [] /\ (1 <= count self)%Z.
Proof.
  unfold joins, spawn. rewrite length_app. cbn [List.length].
  rewrite spawn_timers_length, Z.eqb_eq.
  split.
  - intros H.
    assert (List.length (thread_list self) = 0%nat) as Hl by lia.
    apply length_zero_iff_nil in Hl. split; [exact Hl | lia].
  - intros [-> H]. cbn [List.length]. lia.
Qed.

(** X17.  With [count <= 0] a fresh client still creates and starts the
    thread of probe 1, and it alone. *)
Theorem run_without_count_sends_one_probe (ip : string) (port N per tmo : Z)
    (t0 t1 : Q) (probes : list (Z * probe_env)) :
  (N <= 0)%Z ->
  thread_list (fst (fst (run (init ip port N per tmo) t0 t1 probes)))
  = [Thread 1].
Proof.
  intros HN. rewrite run_thread_list. cbn [thread_list init app].
  unfold spawn. cbn [count init].
  replace (Z.to_nat (N - 1)) with 0%nat by lia. reflexivity.
Qed.

Lemma run_without_count_sends_one_probe_witness :
  thread_list (fst (fst (run (init "10.0.0.1" 8080 0 1000 500) 0
                           (inject_Z 3000) [])))
  = [Thread 1].
Proof.
  apply (run_without_count_sends_one_probe "10.0.0.1" 8080 0 1000 500 0
           (inject_Z 3000) []).
  lia.
Defined.

(** X18.  The one exception a run of a fresh client can end with is the
    [ZeroDivisionError] of the loss percentage, and it ends with it
    exactly when no probe has been counted as sent; otherwise the summary
    is printed. *)
Theorem run_raises_iff_nothing_counted (ip : string) (port N per tmo : Z)
    (t0 t1 : Q) (probes : list (Z * probe_env)) :
  snd (run (init ip port N per tmo) t0 t1 probes)
  = if (request_count
          (fst (fst (run (init ip port N per tmo) t0 t1 probes))) =? 0)%Z
    then Some ZeroDivisionError
    else None.
Proof.
  rewrite run_raised.
  destruct (Z.eqb_spec
              (request_count
                 (fst (fst (run (init ip port N per tmo) t0 t1 probes)))) 0)
    as [Hz|Hnz].
  - rewrite (summary_statistics_zero _ Hz). reflexivity.
  - destruct (summary_statistics_transmitted _ Hnz) as [rest ->];
      [|reflexivity].
    rewrite run_final. apply final_rtt_list_nonempty.
Qed.

End RunProperties.

Section LossProperties.

Local Open Scope string_scope.

(** [round] of a rational that is an integer is that integer. *)
Lemma round_of_Z (x : Q) (k : Z) : (x == inject_Z k)%Q -> Py.round x = k.
Proof.
  intros H. unfold Py.round. rewrite (Qfloor_comp _ _ H), Qfloor_Z.
  assert (H0 : (x - inject_Z k == 0)%Q) by (rewrite H; ring).
  rewrite (Qcompare_comp _ _ H0 _ _ (Qeq_refl (1 # 2))). reflexivity.
Qed.

Lemma loss_all_lost (n : Z) :
  Py.round ((1 - inject_Z 0 / inject_Z n) * 100) = 100%Z.
Proof.
  apply round_of_Z. unfold Qdiv. rewrite Qmult_0_l. reflexivity.
Qed.

Lemma loss_none_lost (n : Z) :
  n <> 0%Z -> Py.round ((1 - inject_Z n / inject_Z n) * 100) = 0%Z.
Proof.
  intros Hn. apply round_of_Z. unfold Qdiv.
  assert (E : (inject_Z n * / inject_Z n == 1)%Q).
  { apply Qmult_inv_r. intros H0.
    apply (inject_Z_injective n 0) in H0. exact (Hn H0). }
  rewrite E. reflexivity.
Qed.

(** X19.  When probes were counted as sent and none as replied, the
    summary reports 0 received and 100% loss, with the all-zero RTT
    line. *)
Theorem all_lost_reports_full_loss (self : PingClient) :
  request_count self <> 0%Z ->
  reply_count self = 0%Z ->
  summary_statistics self =
    inr (summary_header self ++ Py.str (request_count self)
           ++ " transmitted, 0 received, 100% loss, time "
           ++ Py.str (Py.round (total_end self - total_start self))
           ++ " ms" ++ nl ++ "rtt min/avg/max = 0/0/0 ms").
Proof.
  intros Hreq Hrep. rewrite summary_statistics_eq by exact Hreq. cbv zeta.
  unfold counts_line. rewrite Hrep, loss_all_lost. cbn [Z.eqb].
  rewrite !append_assoc. reflexivity.
Qed.

Lemma all_lost_reports_full_loss_witness :
  summary_statistics (set_request_count sample_client 3) =
    inr (summary_header (set_request_count sample_client 3) ++ Py.str 3
           ++ " transmitted, 0 received, 100% loss, time "
           ++ Py.str (Py.round (0 - 0)) ++ " ms" ++ nl
           ++ "rtt min/avg/max = 0/0/0 ms").
Proof.
  apply (all_lost_reports_full_loss (set_request_count sample_client 3)).
  - discriminate.
  - reflexivity.
Defined.

(** X20.  When every probe counted as sent was also counted as replied,
    the summary reports as many received as transmitted and 0% loss. *)
Theorem all_replied_reports_no_loss (self : PingClient) :
  request_count self <> 0%Z ->
  reply_count self = request_count self ->
  rtt_list self <> [] ->
  exists rest,
    summary_statistics self =
      inr (summary_header self ++ Py.str (request_count self)
             ++ " transmitted, " ++ Py.str (request_count self)
             ++ " received, 0% loss, time " ++ rest).
Proof.
  intros Hreq Hrep Hrtt. rewrite summary_statistics_eq by exact Hreq. cbv zeta.
  unfold counts_line. rewrite Hrep, (loss_none_lost _ Hreq).
  destruct (Z.eqb_spec (request_count self) 0) as [|_]; [tauto|].
  destruct (rtt_line_ok _ Hrtt) as [line ->]. unfold bind, ret.
  eexists. rewrite !append_assoc. reflexivity.
Qed.

Lemma all_replied_reports_no_loss_witness :
  exists rest,
    summary_statistics (fst (fst (send_ping sample_client env_replied 1))) =
      inr (summary_header (fst (fst (send_ping sample_client env_replied 1)))
             ++ Py.str (request_count
                          (fst (fst (send_ping sample_client env_replied 1))))
             ++ " transmitted, "
             ++ Py.str (request_count
                          (fst (fst (send_ping sample_client env_replied 1))))
             ++ " received, 0% loss, time " ++ rest).
Proof.
  apply (all_replied_reports_no_loss
           (fst (fst (send_ping sample_client env_replied 1)))).
  - vm_compute. discriminate.
  - vm_compute. reflexivity.
  - vm_compute. discriminate.
Defined.

End LossProperties.


